(** * HoneyPot: the fallback extractor and the turn pipeline

    A shallow embedding of [app/core/intelligence_aggregator.py] and
    [app/core/orchestrator.py].  Python values are modelled as the code
    uses them: a [str] is a sequence of Unicode code points, a list is a
    list, [list(set(xs))] is a duplicate-free list with the elements of
    [xs] in an order the language does not fix, and a call that may raise
    returns in an error monad. *)

From Stdlib Require Import List NArith Bool String Ascii Arith Lia.
From Stdlib Require Import DecimalString.
Import ListNotations.

(** ** Python strings *)

Module PyStr.

  (** A character is a code point; [len] counts code points. *)
Definition char := N.
Definition pystr := list char.

Definition char_eq_dec : forall a b : char, {a = b} + {a <> b} := N.eq_dec.
Definition pystr_eq_dec : forall a b : pystr, {a = b} + {a <> b} :=
    list_eq_dec char_eq_dec.

  (** An ASCII literal of the source. *)
Definition lit (s : string) : pystr :=
    map N_of_ascii (list_ascii_of_string s).

Definition len (s : pystr) : nat := List.length s.

  (** [s.startswith(p)] *)
Fixpoint startswith (s p : pystr) {struct p} : bool :=
    match p, s with
    | [], _ => true
    | _ :: _, [] => false
    | c :: p', d :: s' => N.eqb c d && startswith s' p'
    end.

  (** [s.endswith(p)] *)
Definition endswith (s p : pystr) : bool := startswith (rev s) (rev p).

  (** [needle in hay] on two strings: substring search. *)
Fixpoint contains (hay needle : pystr) : bool :=
    startswith hay needle ||
    match hay with
    | [] => false
    | _ :: hay' => contains hay' needle
    end.

  (** The class [\s] of [re] on a [str] pattern: Unicode white space. *)
Definition is_space (c : char) : bool :=
    ((9 <=? c) && (c <=? 13) || (28 <=? c) && (c <=? 32)
     || (c =? 133) || (c =? 160) || (c =? 5760)
     || (8192 <=? c) && (c <=? 8202)
     || (c =? 8232) || (c =? 8233) || (c =? 8239)
     || (c =? 8287) || (c =? 12288))%N.

  (** The class [[-.\s]]: a dash, a dot or white space. *)
Definition is_separator (c : char) : bool :=
    ((c =? 45) || (c =? 46))%N || is_space c.

  (** [re.sub(r'[-.\s]', '', s)] *)
Definition strip_separators (s : pystr) : pystr :=
    filter (fun c => negb (is_separator c)) s.

  (** [sep.join(xs)] *)
Fixpoint join (sep : pystr) (xs : list pystr) : pystr :=
    match xs with
    | [] => []
    | [x] => x
    | x :: xs' => x ++ sep ++ join sep xs'
    end.

  (** Truth value of a string: empty is false. *)
Definition nonempty (s : pystr) : bool :=
    match s with [] => false | _ :: _ => true end.

End PyStr.
Import PyStr.

(** ** Exceptions *)

(** Only subclasses of [Exception] are modelled: those are what the
    [except Exception] clauses of the source catch. *)
Inductive pyexc : Type :=
| IndexError
| Exception_ (msg : pystr).

Inductive res (A : Type) : Type :=
| Ok (a : A)
| Raise (e : pyexc).
Arguments Ok {A} a.
Arguments Raise {A} e.

Definition bind {A B} (m : res A) (k : A -> res B) : res B :=
  match m with
  | Ok a => k a
  | Raise e => Raise e
  end.

Notation "x <- m ;; k" := (bind m (fun x => k))
  (at level 61, m at next level, right associativity).

(** [try: body except Exception: handler] where the handler returns. *)
Definition try_except {A} (body : res A) (handler : pyexc -> A) : A :=
  match body with
  | Ok a => a
  | Raise e => handler e
  end.

(** [s[0]] *)
Definition index0 (s : pystr) : res pystr :=
  match s with
  | [] => Raise IndexError
  | c :: _ => Ok [c]
  end.

(** ** Data model *)

(** [app.models.session_state.Message]; only [text] is read by the code
    below. *)
Record Message : Type := mkMessage {
  sender : pystr;
  text : pystr;
  timestamp : N
}.

(** [app.models.intelligence.ExtractedIntelligence]: five lists, empty
    on construction. *)
Record ExtractedIntelligence : Type := mkIntelligence {
  bankAccounts : list pystr;
  upiIds : list pystr;
  phoneNumbers : list pystr;
  phishingLinks : list pystr;
  suspiciousKeywords : list pystr
}.

Definition ExtractedIntelligence_new : ExtractedIntelligence :=
  mkIntelligence [] [] [] [] [].

(** ** Phone numbers (lines 147-160, repeated at 188-201) *)

(** The [if]/[elif] chain applied to one cleaned candidate: the value
    appended to [phoneNumbers], or [None] when no branch is taken.  The
    last condition is an [and] chain, so [cleaned[0]] is evaluated only
    when the two tests before it hold. *)
Definition format_phone (cleaned : pystr) : res (option pystr) :=
  if startswith cleaned (lit "+91") && (len cleaned =? 13) then
    Ok (Some cleaned)
  else if startswith cleaned (lit "91") && (len cleaned =? 12) then
    Ok (Some (lit "+" ++ cleaned))
  else if startswith cleaned (lit "0") && (len cleaned =? 11) then
    Ok (Some (lit "+91" ++ tl cleaned))
  else if negb (startswith cleaned (lit "+")) && (len cleaned =? 10) then
    c <- index0 cleaned ;;
    Ok (if contains (lit "6789") c then Some (lit "+91" ++ cleaned) else None)
  else
    Ok None.

(** The loop over the matches, appending to the list built so far. *)
Fixpoint append_phones (matches : list pystr) (phones : list pystr)
  : res (list pystr) :=
  match matches with
  | [] => Ok phones
  | m :: rest =>
      p <- format_phone (strip_separators m) ;;
      append_phones rest
        (match p with Some x => phones ++ [x] | None => phones end)
  end.

(** ** The fallback extractor *)

(** [app.utils.regex_patterns.RegexPatterns], defined outside the two
    modules embedded here: each compiled pattern is taken through its
    [findall], from a text to the list of matched strings
    ([PHONE_NUMBER] after the [str(...)] the loop applies to each
    match). *)
Record RegexPatterns : Type := mkPatterns {
  BANK_ACCOUNT : pystr -> list pystr;
  UPI_ID : pystr -> list pystr;
  PHONE_NUMBER : pystr -> list pystr;
  URL : pystr -> list pystr
}.

Section Aggregator.

(** [self.patterns] and [self.keywords.SUSPICIOUS_KEYWORDS], the list of
    [app.utils.keyword_lists]. *)
Variable patterns : RegexPatterns.
Variable SUSPICIOUS_KEYWORDS : list pystr.

(** [str.lower] *)
Variable lower : pystr -> pystr.

(** [list(set(xs))]: the elements of [xs], each once, in the iteration
    order of the set, which the language leaves open. *)
Variable list_set : list pystr -> list pystr.

(** One pass of the loop over [conversation_history] (lines 176-204). *)
Definition scan_history_message
    (intelligence : ExtractedIntelligence) (hist_msg : Message)
  : res ExtractedIntelligence :=
  let hist_text := text hist_msg in
  let hist_banks := BANK_ACCOUNT patterns hist_text in
  let bank := bankAccounts intelligence ++ map strip_separators hist_banks in
  let hist_upi := UPI_ID patterns hist_text in
  let upi := upiIds intelligence ++ hist_upi in
  let hist_phone_matches := PHONE_NUMBER patterns hist_text in
  phones <- append_phones hist_phone_matches (phoneNumbers intelligence) ;;
  let hist_urls := URL patterns hist_text in
  let links := phishingLinks intelligence ++ hist_urls in
  Ok (mkIntelligence bank upi phones links (suspiciousKeywords intelligence)).

Fixpoint scan_history
    (intelligence : ExtractedIntelligence) (conversation_history : list Message)
  : res ExtractedIntelligence :=
  match conversation_history with
  | [] => Ok intelligence
  | hist_msg :: rest =>
      intelligence' <- scan_history_message intelligence hist_msg ;;
      scan_history intelligence' rest
  end.

(** [IntelligenceAggregator._regex_extract_intelligence] *)
Definition _regex_extract_intelligence
    (message : Message) (conversation_history : list Message)
  : res ExtractedIntelligence :=
  let intelligence := ExtractedIntelligence_new in
  let text := text message in
  let bank_accounts := BANK_ACCOUNT patterns text in
  let bank := bankAccounts intelligence ++ map strip_separators bank_accounts in
  let upi_ids := UPI_ID patterns text in
  let upi := upiIds intelligence ++ upi_ids in
  let phone_matches := PHONE_NUMBER patterns text in
  phones <- append_phones phone_matches (phoneNumbers intelligence) ;;
  let urls := URL patterns text in
  let links := phishingLinks intelligence ++ urls in
  let text_lower := lower text in
  let found_keywords :=
    filter (fun keyword => contains text_lower keyword) SUSPICIOUS_KEYWORDS in
  let keywords := suspiciousKeywords intelligence ++ found_keywords in
  intelligence <- scan_history
                    (mkIntelligence bank upi phones links keywords)
                    conversation_history ;;
  Ok (mkIntelligence
        (list_set (bankAccounts intelligence))
        (list_set (upiIds intelligence))
        (list_set (phoneNumbers intelligence))
        (list_set (phishingLinks intelligence))
        (list_set (suspiciousKeywords intelligence))).

(** *** The external method *)

(** [self._groq_client] is set: the key is configured and the client was
    built. *)
Variable groq_client : bool.

(** Building the prompt, the chat completion and the [strip()] of its
    content (lines 73-85): the text of the answer, or what the call
    raises. *)
Variable llm_completion : Message -> list Message -> res pystr.

(** Lines 88-120: unwrapping the fence, locating and loading the JSON
    object, filling an [ExtractedIntelligence]; raises on a malformed
    answer. *)
Variable parse_response : pystr -> res ExtractedIntelligence.

(** The truth value of an [ExtractedIntelligence] object, as tested by
    [if llm_intelligence]; it is fixed by the class, in
    [app.models.intelligence]. *)
Variable intelligence_truthy : ExtractedIntelligence -> bool.

(** [IntelligenceAggregator._llm_extract_intelligence]: the whole body
    is one [try] whose handler returns [None]. *)
Definition _llm_extract_intelligence
    (message : Message) (conversation_history : list Message)
  : res (option ExtractedIntelligence) :=
  Ok (try_except
        (response_text <- llm_completion message conversation_history ;;
         intelligence <- parse_response response_text ;;
         Ok (Some intelligence))
        (fun _ => None)).

(** [IntelligenceAggregator.extract_intelligence]: the [try] block
    either returns the answer of the external method or falls through,
    as its handler does, to the fallback after it. *)
Definition extract_intelligence
    (message : Message) (conversation_history : list Message)
  : res ExtractedIntelligence :=
  let returned :=
    if groq_client then
      try_except
        (llm_intelligence <-
           _llm_extract_intelligence message conversation_history ;;
         Ok (match llm_intelligence with
             | Some i => if intelligence_truthy i then Some i else None
             | None => None
             end))
        (fun _ => None)
    else None in
  match returned with
  | Some llm_intelligence => Ok llm_intelligence
  | None => _regex_extract_intelligence message conversation_history
  end.

End Aggregator.

(** ** The turn pipeline *)

(** [app.models.strategy] *)
Inductive ConversationGoal : Type :=
| CLARIFY | DELAY | ESCALATE | CONTINUE | WRAP_UP.

Definition goal_eqb (a b : ConversationGoal) : bool :=
  match a, b with
  | CLARIFY, CLARIFY | DELAY, DELAY | ESCALATE, ESCALATE
  | CONTINUE, CONTINUE | WRAP_UP, WRAP_UP => true
  | _, _ => false
  end.

Record StrategyDecision : Type := mkDecision {
  goal : ConversationGoal;
  should_engage : bool;
  reasoning : pystr
}.

(** [app.models.session_state.SessionState].  Its [scamConfidence], a
    float read only to build the request of the external method, is left
    out. *)
Record SessionState : Type := mkSession {
  sessionId : pystr;
  conversationHistory : list Message;
  extractedIntelligence : ExtractedIntelligence;
  conversationEnded : bool;
  finalDecisionReason : option pystr;
  agentNotes : list pystr
}.

(** [session.conversationEnded = True] *)
Definition set_conversationEnded (session : SessionState) : SessionState :=
  mkSession (sessionId session) (conversationHistory session)
            (extractedIntelligence session) true
            (finalDecisionReason session) (agentNotes session).

(** Modelled from the spec: [session_manager.add_agent_note] belongs to
    [app.core.session_manager], whose code is missing.  The session owns
    "an ordered list of agent notes"; a note is recorded by appending it
    to the list of the session of the turn. *)
Definition add_agent_note (session : SessionState) (note : pystr)
  : SessionState :=
  mkSession (sessionId session) (conversationHistory session)
            (extractedIntelligence session) (conversationEnded session)
            (finalDecisionReason session) (agentNotes session ++ [note]).

(** The sentence substituted by the safety guard (line 126). *)
Definition SAFE_FALLBACK : pystr :=
  lit "I'm not sure how to respond to that. Can you clarify?".

(** [f"{error}"] on an optional string *)
Definition format_optional (error : option pystr) : pystr :=
  match error with
  | Some e => e
  | None => lit "None"
  end.

(** Truth value of a list *)
Definition nonempty_list (xs : list pystr) : bool :=
  match xs with [] => false | _ :: _ => true end.

(** Lines 230-231: a pair of surrounding quote characters is removed by
    [reasoning[1:-1]]. *)
Definition strip_quotes (reasoning : pystr) : pystr :=
  if startswith reasoning [34%N] && endswith reasoning [34%N]
  then removelast (tl reasoning) else reasoning.

Section Orchestrator.

(** [intelligence_aggregator.extract_intelligence], the module-level
    instance imported from the aggregator. *)
Variable aggregator_extract_intelligence :
  Message -> list Message -> res ExtractedIntelligence.

(** [session_manager.update_session(session.sessionId, message,
    intelligence=...)]: the update of the session of the turn. *)
Variable update_session :
  SessionState -> Message -> ExtractedIntelligence -> SessionState.

(** The strategy agent, the persona agent and the safety guard, each
    returning its value or raising. *)
Variable decide_strategy : SessionState -> Message -> res StrategyDecision.
Variable generate_response :
  Message -> list Message -> StrategyDecision -> res (option pystr).
Variable validate_response : pystr -> res (bool * option pystr).

(** [self._groq_client] of the orchestrator. *)
Variable notes_client : bool.

(** Lines 213-227: building the prompt, the chat completion and the
    [strip()] of its content. *)
Variable notes_completion :
  SessionState -> ExtractedIntelligence -> res pystr.

(** [Orchestrator._extract_intelligence_parallel] *)
Definition _extract_intelligence_parallel
    (message : Message) (session : SessionState) : ExtractedIntelligence :=
  try_except
    (aggregator_extract_intelligence message (conversationHistory session))
    (fun _ => ExtractedIntelligence_new).

(** [Orchestrator._generate_reasoning_notes]: one [try] whose handler
    returns [None]. *)
Definition _generate_reasoning_notes
    (session : SessionState) (intelligence_dict : ExtractedIntelligence)
  : res (option pystr) :=
  Ok (try_except
        (reasoning <- notes_completion session intelligence_dict ;;
         let reasoning := strip_quotes reasoning in
         Ok (Some reasoning))
        (fun _ => None)).

(** The list [notes] built by [_generate_fallback_notes] (lines 246-261). *)
Definition fallback_notes_list
    (session : SessionState) (intelligence_dict : ExtractedIntelligence)
  : list pystr :=
  (match finalDecisionReason session with
   | Some reason =>
       if nonempty reason then [lit "Scam detected: " ++ reason] else []
   | None => []
   end)
  ++ (if nonempty_list (bankAccounts intelligence_dict)
      then [lit "Extracted bank account(s): "
              ++ join (lit ", ") (bankAccounts intelligence_dict)]
      else [])
  ++ (if nonempty_list (phoneNumbers intelligence_dict)
      then [lit "Extracted phone number(s): "
              ++ join (lit ", ") (phoneNumbers intelligence_dict)]
      else [])
  ++ (if nonempty_list (upiIds intelligence_dict)
      then [lit "Extracted UPI ID(s): "
              ++ join (lit ", ") (upiIds intelligence_dict)]
      else [])
  ++ (if nonempty_list (phishingLinks intelligence_dict)
      then [lit "Extracted phishing link(s): "
              ++ join (lit ", ") (phishingLinks intelligence_dict)]
      else []).

(** [Orchestrator._generate_fallback_notes] *)
Definition _generate_fallback_notes
    (session : SessionState) (intelligence_dict : ExtractedIntelligence)
  : SessionState :=
  let notes := fallback_notes_list session intelligence_dict in
  if nonempty_list notes
  then add_agent_note session (join (lit "; ") notes)
  else session.

(** [Orchestrator._add_intelligence_notes]: the [try] block either adds
    the note of the external method and returns, or falls through, as
    its handler does, to the rule-based notes. *)
Definition _add_intelligence_notes
    (session : SessionState) (intelligence : ExtractedIntelligence)
  : SessionState :=
  let intelligence_dict := intelligence in
  let added :=
    if notes_client then
      try_except
        (reasoning_note <-
           _generate_reasoning_notes session intelligence_dict ;;
         Ok (match reasoning_note with
             | Some note => if nonempty note then Some note else None
             | None => None
             end))
        (fun _ => None)
    else None in
  match added with
  | Some reasoning_note => add_agent_note session reasoning_note
  | None => _generate_fallback_notes session intelligence_dict
  end.

(** [Orchestrator.process_message]: the outcome of the call (the
    returned value or the exception that leaves it) and the session as
    the call leaves it. *)
Definition process_message (message : Message) (session : SessionState)
  : res (option pystr) * SessionState :=
  let intelligence := _extract_intelligence_parallel message session in
  let session := update_session session message intelligence in
  match decide_strategy session message with
  | Raise e => (Raise e, session)
  | Ok strategy_decision =>
    if negb (should_engage strategy_decision) then
      let session :=
        if goal_eqb (goal strategy_decision) WRAP_UP
        then set_conversationEnded session else session in
      (Ok None, session)
    else
      match generate_response message (conversationHistory session)
                              strategy_decision with
      | Raise e => (Raise e, session)
      | Ok None => (Ok None, session)
      | Ok (Some response) =>
        if negb (nonempty response) then (Ok None, session)
        else
          match validate_response response with
          | Raise e => (Raise e, session)
          | Ok (is_valid, error) =>
            let '(response, session) :=
              if negb is_valid
              then (SAFE_FALLBACK,
                    add_agent_note session
                      (lit "Safety guard triggered: " ++ format_optional error))
              else (response, session) in
            let session := _add_intelligence_notes session intelligence in
            let session :=
              if goal_eqb (goal strategy_decision) WRAP_UP
              then set_conversationEnded session else session in
            (Ok (Some response), session)
          end
      end
  end.

End Orchestrator.

(** ** Collected candidates *)

(** What one pass over a text contributes to each list, in the order
    the loops append it. *)
Definition phone_of (candidate : pystr) : list pystr :=
  match format_phone (strip_separators candidate) with
  | Ok (Some phone) => [phone]
  | _ => []
  end.

Definition banks_in (patterns : RegexPatterns) (msg : Message) : list pystr :=
  map strip_separators (BANK_ACCOUNT patterns (text msg)).

Definition upis_in (patterns : RegexPatterns) (msg : Message) : list pystr :=
  UPI_ID patterns (text msg).

Definition phones_in (patterns : RegexPatterns) (msg : Message) : list pystr :=
  flat_map phone_of (PHONE_NUMBER patterns (text msg)).

Definition links_in (patterns : RegexPatterns) (msg : Message) : list pystr :=
  URL patterns (text msg).

Definition keywords_in (SUSPICIOUS_KEYWORDS : list pystr)
    (lower : pystr -> pystr) (msg : Message) : list pystr :=
  filter (fun keyword => contains (lower (text msg)) keyword)
         SUSPICIOUS_KEYWORDS.

(** The first character is one of the four leading digits of a mobile
    number. *)
Definition leading_mobile_digit (cleaned : pystr) : bool :=
  match cleaned with
  | c :: _ => existsb (N.eqb c) (lit "6789")
  | [] => false
  end.

(** ** A concrete environment

    Simple patterns, keywords and stages on which the model runs on
    concrete conversations. *)

Module Sample.

(** Splitting a text at spaces. *)
Fixpoint tokens_from (current : pystr) (s : pystr) : list pystr :=
  match s with
  | [] => match current with [] => [] | _ => [rev current] end
  | c :: s' =>
      if N.eqb c 32
      then match current with
           | [] => tokens_from [] s'
           | _ => rev current :: tokens_from [] s'
           end
      else tokens_from (c :: current) s'
  end.

Definition tokens (s : pystr) : list pystr := tokens_from [] s.

Definition is_digit (c : char) : bool := ((48 <=? c) && (c <=? 57))%N.

(** Digit groups joined by dashes or dots, nine characters or more. *)
Definition bank_findall (s : pystr) : list pystr :=
  filter (fun t => forallb (fun c => is_digit c || N.eqb c 45 || N.eqb c 46) t
                   && (9 <=? len t))
         (tokens s).

(** Digit groups with an optional sign, dashes and dots. *)
Definition phone_findall (s : pystr) : list pystr :=
  filter (fun t => forallb (fun c => is_digit c || N.eqb c 43
                                     || N.eqb c 45 || N.eqb c 46) t
                   && (5 <=? len t))
         (tokens s).

Definition upi_findall (s : pystr) : list pystr :=
  filter (fun t => existsb (N.eqb 64) t) (tokens s).

Definition url_findall (s : pystr) : list pystr :=
  filter (fun t => startswith t (lit "http")) (tokens s).

Definition patterns : RegexPatterns :=
  mkPatterns bank_findall upi_findall phone_findall url_findall.

Definition keywords : list pystr := [lit "urgent"; lit "otp"; lit "blocked"].

(** Lower-casing of the ASCII letters. *)
Definition lower (s : pystr) : pystr :=
  map (fun c => if ((65 <=? c) && (c <=? 90))%N then (c + 32)%N else c) s.

(** First occurrences, in order. *)
Definition list_set (xs : list pystr) : list pystr :=
  rev (nodup pystr_eq_dec (rev xs)).

Definition msg (s : string) : Message := mkMessage (lit "scammer") (lit s) 0.

(** The fallback extractor in this environment. *)
Definition regex_extract (message : Message) (history : list Message)
  : res ExtractedIntelligence :=
  _regex_extract_intelligence patterns keywords lower list_set message history.

(** An external method that is never reached, one that raises, and one
    that answers with an empty artifact set. *)
Definition llm_raises (_ : Message) (_ : list Message) : res pystr :=
  Raise (Exception_ (lit "timeout")).

Definition llm_answers (_ : Message) (_ : list Message) : res pystr :=
  Ok (lit "{}").

Definition parse_empty (_ : pystr) : res ExtractedIntelligence :=
  Ok ExtractedIntelligence_new.

Definition parse_fails (_ : pystr) : res ExtractedIntelligence :=
  Raise (Exception_ (lit "malformed")).

(** The truth test of a list-like object: some collection is not empty. *)
Definition truthy_if_nonempty (i : ExtractedIntelligence) : bool :=
  nonempty_list (bankAccounts i) || nonempty_list (upiIds i)
  || nonempty_list (phoneNumbers i) || nonempty_list (phishingLinks i)
  || nonempty_list (suspiciousKeywords i).

Definition extract (message : Message) (history : list Message)
  : res ExtractedIntelligence :=
  extract_intelligence patterns keywords lower list_set
    true llm_raises parse_fails truthy_if_nonempty message history.

(** A session manager that appends the message and stores the
    artifacts. *)
Definition update_session (session : SessionState) (message : Message)
    (intelligence : ExtractedIntelligence) : SessionState :=
  mkSession (sessionId session) (conversationHistory session ++ [message])
            intelligence (conversationEnded session)
            (finalDecisionReason session) (agentNotes session).

(** A strategy stage driven by the text of the message. *)
Definition decide_strategy (_ : SessionState) (message : Message)
  : res StrategyDecision :=
  if pystr_eq_dec (text message) (lit "bye")
  then Ok (mkDecision WRAP_UP false (lit "done"))
  else if pystr_eq_dec (text message) (lit "last")
  then Ok (mkDecision WRAP_UP true (lit "closing"))
  else if pystr_eq_dec (text message) (lit "skip")
  then Ok (mkDecision DELAY false (lit "wait"))
  else Ok (mkDecision CONTINUE true (lit "engage")).

(** A persona stage: silent on "hush", careless on "otp". *)
Definition generate_response (message : Message) (_ : list Message)
    (_ : StrategyDecision) : res (option pystr) :=
  if pystr_eq_dec (text message) (lit "hush") then Ok (Some [])
  else if pystr_eq_dec (text message) (lit "otp")
  then Ok (Some (lit "My OTP is 1234"))
  else Ok (Some (lit "Who is this?")).

(** A persona stage and a gate that raise. *)
Definition generate_raises (_ : Message) (_ : list Message)
    (_ : StrategyDecision) : res (option pystr) :=
  Raise (Exception_ (lit "persona")).

Definition validate_raises (_ : pystr) : res (bool * option pystr) :=
  Raise (Exception_ (lit "guard")).

(** A gate that rejects a response naming the OTP. *)
Definition validate_response (response : pystr)
  : res (bool * option pystr) :=
  if contains response (lit "OTP")
  then Ok (false, Some (lit "forbidden phrase"))
  else Ok (true, None).

Definition notes_raises (_ : SessionState) (_ : ExtractedIntelligence)
  : res pystr :=
  Raise (Exception_ (lit "timeout")).

Definition notes_answers (_ : SessionState) (_ : ExtractedIntelligence)
  : res pystr :=
  Ok (34%N :: lit "Urgency tactics." ++ [34%N]).

Definition session0 : SessionState :=
  mkSession (lit "s1") [] ExtractedIntelligence_new false None [].

(** The pipeline in this environment, without an external client for the
    notes. *)
Definition turn (message : Message) (session : SessionState)
  : res (option pystr) * SessionState :=
  process_message extract update_session decide_strategy generate_response
                  validate_response false notes_raises message session.

End Sample.

(** ** The prompt and template library ([app/utils/prompts.py]) *)

Definition nl : pystr := [10%N].
Definition dq : pystr := [34%N].

(** [str(i)] on a non-negative integer *)
Definition str_of_nat (n : nat) : pystr :=
  lit (NilEmpty.string_of_uint (Nat.to_uint n)).

(** [xs[-n:]] for a positive [n] *)
Definition last_n {A : Type} (n : nat) (xs : list A) : list A :=
  skipn (List.length xs - n) xs.

(** [a == b] on two strings *)
Definition pystr_eqb (a b : pystr) : bool :=
  if pystr_eq_dec a b then true else false.

(** Truth value of a list of messages *)
Definition nonempty_history (xs : list Message) : bool :=
  match xs with [] => false | _ :: _ => true end.

(** A dictionary keyed by goals, as the list of its items; [d.get(k)]
    and [d[k]], which raises [KeyError] on a missing key. *)
Fixpoint dict_get (d : list (ConversationGoal * pystr)) (k : ConversationGoal)
  : option pystr :=
  match d with
  | [] => None
  | (k', v) :: d' => if goal_eqb k k' then Some v else dict_get d' k
  end.

Definition dict_index (d : list (ConversationGoal * pystr))
    (k : ConversationGoal) : res pystr :=
  match dict_get d k with
  | Some v => Ok v
  | None => Raise (Exception_ (lit "KeyError"))
  end.

Module ForbiddenPhrases.

Definition FORBIDDEN : list pystr :=
  [lit "I am an AI";
   lit "I'm a bot";
   lit "I'm an AI";
   lit "detection system";
   lit "honeypot";
   lit "I'm detecting";
   lit "I'm analyzing";
   lit "intelligence";
   lit "gathered intelligence";
   lit "extracted";
   lit "confidence score";
   lit "rule-based";
   lit "scam detection";
   lit "I'm a system";
   lit "automated";
   lit "algorithm"].

Definition META_PHRASES : list pystr :=
  [lit "we've already";
   lit "we have gathered";
   lit "we extracted";
   lit "our system";
   lit "the system";
   lit "detection";
   lit "analysis"].

End ForbiddenPhrases.

Module FallbackResponses.

Section WithLower.

(** [str.lower] *)
Variable lower : pystr -> pystr.

(** [FallbackResponses.get_response] *)
Definition get_response (goal : ConversationGoal) (message_text : pystr)
  : pystr :=
  let text_lower := lower message_text in
  if goal_eqb goal CLARIFY then
    if contains text_lower (lit "upi") || contains text_lower (lit "upi id")
    then List.concat
         [lit "I'm not comfortable sharing my UPI ID. Is there another ";
          lit "way to verify?"]
    else if contains text_lower (lit "link")
            || contains text_lower (lit "click")
    then List.concat
         [lit "I'm not sure about clicking links. Can you tell me more ";
          lit "about this?"]
    else if contains text_lower (lit "verify")
    then List.concat
         [lit "How do I verify? Can you explain the process step by ";
          lit "step?"]
    else lit "I see. Can you provide more details about this?"
  else if goal_eqb goal DELAY then
    if contains text_lower (lit "urgent")
       || contains text_lower (lit "immediately")
    then List.concat
         [lit "I'm at work right now. Can you explain what I need to ";
          lit "do? I need a few minutes to understand this."]
    else List.concat
         [lit "I need to check something first. Can you give me more ";
          lit "information about this?"]
  else if goal_eqb goal ESCALATE then
    if contains text_lower (lit "blocked")
       || contains text_lower (lit "suspended")
    then List.concat
         [lit "This is really worrying. What exactly do I need to do ";
          lit "to prevent this? I want to fix this immediately."]
    else lit "I'm concerned about this. What should I do next?"
  else if goal_eqb goal CONTINUE then
    if contains text_lower (lit "blocked")
       || contains text_lower (lit "suspended")
    then lit "Why is my account being blocked? What did I do wrong?"
    else if contains text_lower (lit "verify")
    then lit "How do I verify? Can you explain the process?"
    else lit "I see. Can you provide more details about this?"
  else
    List.concat
         [lit "I'll check with my bank directly. Thanks for letting me ";
          lit "know."].

End WithLower.

(** The sentences [get_response] can return. *)
Definition responses : list pystr :=
  [List.concat
      [lit "I'm not comfortable sharing my UPI ID. Is there another ";
       lit "way to verify?"];
   List.concat
      [lit "I'm not sure about clicking links. Can you tell me more ";
       lit "about this?"];
   List.concat
      [lit "How do I verify? Can you explain the process step by ";
       lit "step?"];
   lit "I see. Can you provide more details about this?";
   List.concat
      [lit "I'm at work right now. Can you explain what I need to ";
       lit "do? I need a few minutes to understand this."];
   List.concat
      [lit "I need to check something first. Can you give me more ";
       lit "information about this?"];
   List.concat
      [lit "This is really worrying. What exactly do I need to do ";
       lit "to prevent this? I want to fix this immediately."];
   lit "I'm concerned about this. What should I do next?";
   lit "Why is my account being blocked? What did I do wrong?";
   lit "How do I verify? Can you explain the process?";
   lit "I see. Can you provide more details about this?";
   List.concat
      [lit "I'll check with my bank directly. Thanks for letting me ";
       lit "know."]].

End FallbackResponses.

Module PersonaAgentPrompts.

(** The dictionary built by [get_goal_instruction] (lines 128-160). *)
Definition goal_instructions : list (ConversationGoal * pystr) :=
  [(CLARIFY,
    List.concat
      [nl; lit "Current goal: Ask for clarification."; nl;
       lit "- Ask one simple question."; nl;
       lit "- Show mild concern or confusion."; nl;
       lit "- Do not agree to any action."; nl]);
   (DELAY,
    List.concat
      [nl; lit "Current goal: Delay politely."; nl;
       lit "- Say you need time or need to check."; nl;
       lit "- Keep tone calm and reasonable."; nl]);
   (ESCALATE,
    List.concat
      [nl; lit "Current goal: Show increased concern."; nl;
       lit "- Express worry."; nl; lit "- Ask what needs to be done."; nl;
       lit "- Do not commit to anything."; nl]);
   (CONTINUE,
    List.concat
      [nl; lit "Current goal: Continue the conversation naturally."; nl;
       lit "- Respond briefly."; nl;
       lit "- Ask a relevant follow-up if needed."; nl]);
   (WRAP_UP,
    List.concat
      [nl; lit "Current goal: End the conversation politely."; nl;
       lit "- Be firm but respectful."; nl; lit "- Example: "; dq;
       lit "I'll check with my bank directly. Thank you."; dq; nl])].

(** [PersonaAgentPrompts.get_goal_instruction]: the default of [get] is
    the entry of CONTINUE, looked up before the call. *)
Definition get_goal_instruction (goal : ConversationGoal) : res pystr :=
  default <- dict_index goal_instructions CONTINUE ;;
  Ok (match dict_get goal_instructions goal with
      | Some instruction => instruction
      | None => default
      end).

(** The example replies added to every context (lines 185-190). *)
Definition example_replies : pystr :=
  List.concat
    [lit "Example replies (tone & length):"; nl; lit "- "; dq;
     lit "I'm not sure why this is happening. Can you explain?"; dq; nl;
     lit "- "; dq;
     lit "This sounds worrying. What exactly do I need to do?"; dq; nl;
     lit "- "; dq;
     lit "I don't usually click links. Can you tell me more?"; dq; nl;
     lit "- "; dq; lit "I need some time to check this. Please wait."; dq;
     nl].

(** [PersonaAgentPrompts.build_conversation_context] *)
Definition build_conversation_context (system_prompt : pystr)
    (conversation_history : list Message) (current_message : pystr)
  : pystr :=
  let context := system_prompt ++ nl ++ nl in
  let context := context ++ example_replies in
  let context := context ++ nl in
  let context :=
    if nonempty_history conversation_history then
      let context := context ++ lit "Previous conversation:" ++ nl in
      let context :=
        fold_left
          (fun context msg =>
             if pystr_eqb (sender msg) (lit "scammer")
             then context ++ lit "Scammer: " ++ text msg ++ nl
             else context ++ lit "You: " ++ text msg ++ nl)
          (last_n 8 conversation_history) context in
      context ++ nl
    else context in
  let context :=
    context ++ lit "Current message from scammer: " ++ current_message
            ++ nl ++ nl in
  context ++ (List.concat
       [lit "Your response (be natural, varied, and don't repeat ";
        lit "previous responses):"]).

End PersonaAgentPrompts.

Module IntelligenceExtractionPrompts.

(** The loop of lines 291-292, [enumerate] counting from [i]. *)
Fixpoint numbered_messages (i : nat) (conversation_history : list Message)
    (conversation_text : pystr) : pystr :=
  match conversation_history with
  | [] => conversation_text
  | msg :: rest =>
      numbered_messages (S i) rest
        (conversation_text ++ lit "Message " ++ str_of_nat i ++ lit " ("
           ++ sender msg ++ lit "): " ++ text msg ++ nl)
  end.

(** The text before and after the conversation in the returned
    f-string (lines 296-361). *)
Definition prompt_head : pystr :=
  List.concat
    [lit "You are an intelligence extraction agent analyzing a ";
     lit "scam conversation."; nl; nl;
     lit "Your task: Extract ALL intelligence from the ENTIRE ";
     lit "conversation (all messages, not just the latest)."; nl; nl;
     lit "Analyze EVERY message in the conversation and extract:"; nl; nl;
     lit "1. BANK ACCOUNT NUMBERS:"; nl;
     lit "   - Any format: XXXX-XXXX-XXXX-XXXX, XXXX XXXX XXXX ";
     lit "XXXX, or 16 consecutive digits"; nl;
     lit "   - Indian bank accounts, international accounts, any ";
     lit "format"; nl;
     lit "   - Example: 1234-5678-9012-3456, 1234567890123456, ";
     lit "1234 5678 9012 3456"; nl; nl; lit "2. PHONE NUMBERS:"; nl;
     lit "   - Indian numbers: +91-XXXXXXXXXX, +91 XXXXXXXXXX, ";
     lit "+91XXXXXXXXXX, 91XXXXXXXXXX, 0XXXXXXXXXX, or 10-digit ";
     lit "numbers starting with 6-9"; nl;
     lit "   - International numbers: ANY format with country ";
     lit "codes (e.g., +1-XXX-XXX-XXXX, +44-XXXX-XXXXXX, etc.)"; nl;
     lit "   - Handle dashes, spaces, parentheses, dots: +1 (555) ";
     lit "123-4567, +44.20.1234.5678"; nl;
     lit "   - Extract ALL phone numbers regardless of format"; nl; nl;
     lit "3. UPI IDs:"; nl;
     lit "   - Any format: name@paytm, name@gpay, name@phonepe, ";
     lit "name@ybl, name@okicici, etc."; nl;
     lit "   - Handle variations: name@upi, name@payzapp, etc."; nl; nl;
     lit "4. PHISHING LINKS:"; nl;
     lit "   - Any URLs: http://, https://, www., short links ";
     lit "(bit.ly, tinyurl, etc.)"; nl;
     lit "   - Extract ALL links mentioned in conversation"; nl; nl;
     lit "5. SUSPICIOUS KEYWORDS:"; nl;
     lit "   - Urgency: urgent, immediately, asap, hurry, ";
     lit "quickly, right now"; nl;
     lit "   - Threats: blocked, suspended, frozen, locked, ";
     lit "closed, terminated"; nl;
     lit "   - Sensitive info: OTP, PIN, password, account ";
     lit "number, UPI ID, CVV"; nl;
     lit "   - Actions: verify, share, send, provide, click, call"; nl;
     lit "   - Time pressure: minutes, hours, today, deadline, ";
     lit "final notice"; nl; nl; lit "CRITICAL INSTRUCTIONS:"; nl;
     lit "- Extract from ALL messages in the conversation, not ";
     lit "just the latest"; nl;
     lit "- Cumulate everything - don't miss intelligence from ";
     lit "earlier messages"; nl;
     lit "- Handle ANY format - don't rely on specific patterns"; nl;
     lit "- International phone numbers are valid - extract them"; nl;
     lit "- Bank accounts can be in any format - extract them"; nl;
     lit "- Be thorough - check every single message"; nl;
     lit "- Normalize phone numbers to include country code ";
     lit "(e.g., +91XXXXXXXXXX for Indian, +1XXXXXXXXXX for US)"; nl;
     lit "- Remove duplicates before returning"; nl; nl;
     lit "Conversation:"; nl].

Definition prompt_tail : pystr :=
  List.concat
    [nl; nl; lit "Return ONLY valid JSON in this EXACT format:"; nl;
     lit "{"; nl; lit "  "; dq; lit "bankAccounts"; dq; lit ": ["; dq;
     lit "1234567890123456"; dq; lit "],"; nl; lit "  "; dq;
     lit "phoneNumbers"; dq; lit ": ["; dq; lit "+919876543210"; dq;
     lit ", "; dq; lit "+15551234567"; dq; lit "],"; nl; lit "  "; dq;
     lit "upiIds"; dq; lit ": ["; dq; lit "scammer@paytm"; dq; lit "],";
     nl; lit "  "; dq; lit "phishingLinks"; dq; lit ": ["; dq;
     lit "http://example.com"; dq; lit "],"; nl; lit "  "; dq;
     lit "suspiciousKeywords"; dq; lit ": ["; dq; lit "urgent"; dq;
     lit ", "; dq; lit "blocked"; dq; lit ", "; dq; lit "otp"; dq; lit "]";
     nl; lit "}"; nl; nl;
     lit "If no intelligence found, return empty arrays:"; nl; lit "{"; nl;
     lit "  "; dq; lit "bankAccounts"; dq; lit ": [],"; nl; lit "  "; dq;
     lit "phoneNumbers"; dq; lit ": [],"; nl; lit "  "; dq; lit "upiIds";
     dq; lit ": [],"; nl; lit "  "; dq; lit "phishingLinks"; dq;
     lit ": [],"; nl; lit "  "; dq; lit "suspiciousKeywords"; dq;
     lit ": []"; nl; lit "}"; nl; nl; lit "JSON response:"].

(** [IntelligenceExtractionPrompts.get_intelligence_extraction_prompt] *)
Definition get_intelligence_extraction_prompt
    (conversation_history : list Message) (current_message : pystr)
  : pystr :=
  let conversation_text := [] in
  let conversation_text :=
    numbered_messages 1 conversation_history conversation_text in
  let conversation_text :=
    conversation_text ++ lit "Current Message (scammer): "
                      ++ current_message ++ nl in
  prompt_head ++ conversation_text ++ prompt_tail.

End IntelligenceExtractionPrompts.

(** ** Facts about the string operations *)

Lemma strip_separators_idempotent (s : pystr) :
  strip_separators (strip_separators s) = strip_separators s.
Proof.
  unfold strip_separators.
  induction s as [|c s IH]; simpl; [reflexivity|].
  destruct (is_separator c) eqn:E; simpl; [exact IH|].
  rewrite E; simpl. now rewrite IH.
Qed.

Lemma contains_single (c : char) (digits : pystr) :
  contains digits [c] = existsb (N.eqb c) digits.
Proof.
  induction digits as [|d ds IH]; simpl; [reflexivity|].
  rewrite IH. rewrite andb_true_r. reflexivity.
Qed.

(** ** Facts about the phone-number chain *)

Lemma format_phone_len10 (cleaned : pystr) :
  len cleaned = 10 ->
  format_phone cleaned =
    Ok (if leading_mobile_digit cleaned
        then Some (lit "+91" ++ cleaned) else None).
Proof.
  intro L. unfold format_phone. rewrite L. simpl Nat.eqb.
  rewrite !andb_false_r, andb_true_r.
  destruct cleaned as [|c t]; [discriminate L|].
  unfold index0, bind, leading_mobile_digit.
  rewrite contains_single.
  destruct (startswith (c :: t) (lit "+")) eqn:P; simpl negb; cbv iota;
    [|reflexivity].
  change (lit "+") with [43%N] in P. cbn [startswith] in P.
  rewrite andb_true_r in P. apply N.eqb_eq in P. subst c.
  reflexivity.
Qed.

Lemma format_phone_total (cleaned : pystr) :
  exists r, format_phone cleaned = Ok r.
Proof.
  unfold format_phone.
  destruct (startswith cleaned (lit "+91") && (len cleaned =? 13));
    [eauto|].
  destruct (startswith cleaned (lit "91") && (len cleaned =? 12));
    [eauto|].
  destruct (startswith cleaned (lit "0") && (len cleaned =? 11));
    [eauto|].
  destruct (negb (startswith cleaned (lit "+")) && (len cleaned =? 10)) eqn:E;
    [|eauto].
  apply andb_prop in E. destruct E as [_ E]. apply Nat.eqb_eq in E.
  destruct cleaned; [discriminate E|]. simpl. eauto.
Qed.

Lemma append_phones_ok (matches phones : list pystr) :
  append_phones matches phones = Ok (phones ++ flat_map phone_of matches).
Proof.
  revert phones.
  induction matches as [|m rest IH]; intro phones; simpl.
  - now rewrite app_nil_r.
  - unfold phone_of at 1.
    destruct (format_phone_total (strip_separators m)) as [r Hr].
    rewrite Hr. simpl. rewrite IH.
    destruct r; simpl; [now rewrite <- app_assoc|reflexivity].
Qed.

(** ** Facts about the fallback extractor *)

Section AggregatorFacts.

Variable patterns : RegexPatterns.
Variable SUSPICIOUS_KEYWORDS : list pystr.
Variable lower : pystr -> pystr.
Variable list_set : list pystr -> list pystr.
Hypothesis list_set_NoDup : forall xs, NoDup (list_set xs).
Hypothesis list_set_In : forall xs x, In x (list_set xs) <-> In x xs.

Local Abbreviation regex_extract :=
  (_regex_extract_intelligence patterns SUSPICIOUS_KEYWORDS lower list_set).

Lemma scan_history_ok (history : list Message) (i : ExtractedIntelligence) :
  scan_history patterns i history =
    Ok (mkIntelligence
          (bankAccounts i ++ flat_map (banks_in patterns) history)
          (upiIds i ++ flat_map (upis_in patterns) history)
          (phoneNumbers i ++ flat_map (phones_in patterns) history)
          (phishingLinks i ++ flat_map (links_in patterns) history)
          (suspiciousKeywords i)).
Proof.
  revert i.
  induction history as [|h rest IH]; intro i; simpl.
  - rewrite !app_nil_r. now destruct i.
  - unfold scan_history_message. rewrite append_phones_ok. simpl.
    rewrite IH. simpl.
    unfold banks_in, upis_in, phones_in, links_in.
    now rewrite <- !app_assoc.
Qed.

(** The fallback never raises, and its five lists are the sets of what
    the current message and the history contribute. *)
Lemma regex_extract_ok (message : Message) (history : list Message) :
  regex_extract message history =
    Ok (mkIntelligence
          (list_set (flat_map (banks_in patterns) (message :: history)))
          (list_set (flat_map (upis_in patterns) (message :: history)))
          (list_set (flat_map (phones_in patterns) (message :: history)))
          (list_set (flat_map (links_in patterns) (message :: history)))
          (list_set (keywords_in SUSPICIOUS_KEYWORDS lower message))).
Proof.
  unfold _regex_extract_intelligence.
  rewrite append_phones_ok. simpl.
  rewrite scan_history_ok. simpl.
  reflexivity.
Qed.

Lemma phone_of_In (candidate x : pystr) :
  In x (phone_of candidate) <->
  format_phone (strip_separators candidate) = Ok (Some x).
Proof.
  unfold phone_of.
  destruct (format_phone (strip_separators candidate)) as [[p|]|e]; simpl;
    split; intro H; try tauto; try discriminate.
  - destruct H as [H|[]]. now subst.
  - left. congruence.
Qed.

(** C1: every candidate of the phone pattern, once its dashes, dots and
    white space are removed, is classified by prefix and length: "+91"
    with 13 characters is kept, "91" with 12 gets a leading "+", "0" with
    11 has the "0" replaced by "+91", a value of 10 characters is kept
    with "+91" in front exactly when its first character is 6, 7, 8 or 9,
    and any other value yields nothing; no case raises, and the phone
    numbers of the result are the values so obtained from the candidates
    of the message and of the history. *)
Theorem C1_phone_normalization (message : Message) (history : list Message) :
  (forall cleaned : pystr,
      (startswith cleaned (lit "+91") = true -> len cleaned = 13 ->
       format_phone cleaned = Ok (Some cleaned))
      /\ (startswith cleaned (lit "91") = true -> len cleaned = 12 ->
          format_phone cleaned = Ok (Some (lit "+" ++ cleaned)))
      /\ (startswith cleaned (lit "0") = true -> len cleaned = 11 ->
          format_phone cleaned = Ok (Some (lit "+91" ++ tl cleaned)))
      /\ (len cleaned = 10 ->
          format_phone cleaned =
            Ok (if leading_mobile_digit cleaned
                then Some (lit "+91" ++ cleaned) else None))
      /\ (~ (startswith cleaned (lit "+91") = true /\ len cleaned = 13) ->
          ~ (startswith cleaned (lit "91") = true /\ len cleaned = 12) ->
          ~ (startswith cleaned (lit "0") = true /\ len cleaned = 11) ->
          len cleaned <> 10 ->
          format_phone cleaned = Ok None))
  /\ exists r,
      regex_extract message history = Ok r
      /\ forall x,
          In x (phoneNumbers r) <->
          exists m candidate,
            In m (message :: history)
            /\ In candidate (PHONE_NUMBER patterns (text m))
            /\ format_phone (strip_separators candidate) = Ok (Some x).
Proof.
  split.
  - intro cleaned. repeat split.
    + intros P L. unfold format_phone. rewrite P, L. reflexivity.
    + intros P L. unfold format_phone. rewrite P, L. simpl Nat.eqb.
      rewrite andb_false_r. reflexivity.
    + intros P L. unfold format_phone. rewrite P, L. simpl Nat.eqb.
      rewrite !andb_false_r. reflexivity.
    + apply format_phone_len10.
    + intros H1 H2 H3 H4. unfold format_phone.
      destruct (startswith cleaned (lit "+91") && (len cleaned =? 13)) eqn:E1.
      { apply andb_prop in E1. destruct E1 as [A B].
        apply Nat.eqb_eq in B. tauto. }
      destruct (startswith cleaned (lit "91") && (len cleaned =? 12)) eqn:E2.
      { apply andb_prop in E2. destruct E2 as [A B].
        apply Nat.eqb_eq in B. tauto. }
      destruct (startswith cleaned (lit "0") && (len cleaned =? 11)) eqn:E3.
      { apply andb_prop in E3. destruct E3 as [A B].
        apply Nat.eqb_eq in B. tauto. }
      apply Nat.eqb_neq in H4. rewrite H4, andb_false_r. reflexivity.
  - eexists. split; [apply regex_extract_ok|].
    intro x. cbn [phoneNumbers]. rewrite list_set_In, in_flat_map.
    split.
    + intros [m [Hm Hx]]. unfold phones_in in Hx.
      apply in_flat_map in Hx. destruct Hx as [c [Hc Hx]].
      apply phone_of_In in Hx. now exists m, c.
    + intros [m [c [Hm [Hc Hx]]]]. exists m. split; [exact Hm|].
      unfold phones_in. apply in_flat_map. exists c. split; [exact Hc|].
      now apply phone_of_In.
Qed.

Lemma NoDup_singleton (l : list pystr) (v : pystr) :
  NoDup l -> (forall x, In x l <-> x = v) -> l = [v].
Proof.
  intros N H. destruct l as [|a [|b l]].
  - destruct (proj2 (H v) eq_refl).
  - f_equal. apply H. now left.
  - exfalso. inversion N as [|? ? Hn _]; subst. apply Hn.
    assert (a = v) by (apply H; now left).
    assert (b = v) by (apply H; right; now left).
    subst. now left.
Qed.

Lemma banks_in_In (msgs : list Message) (x : pystr) :
  In x (flat_map (banks_in patterns) msgs) <->
  exists c,
    In c (flat_map (fun m => BANK_ACCOUNT patterns (text m)) msgs)
    /\ x = strip_separators c.
Proof.
  rewrite in_flat_map. split.
  - intros [m [Hm Hx]]. unfold banks_in in Hx. apply in_map_iff in Hx.
    destruct Hx as [c [E Hc]]. exists c. split; [|now symmetry].
    apply in_flat_map. now exists m.
  - intros [c [Hc E]]. apply in_flat_map in Hc. destruct Hc as [m [Hm Hc]].
    exists m. split; [exact Hm|]. unfold banks_in. apply in_map_iff.
    exists c. now split.
Qed.

(** C6: in the result of the fallback extractor none of the five
    collections holds a value twice; when the bank pattern finds one
    account string both with and without its separators, and nothing
    else, the result holds exactly one bank account, the string without
    separators. *)
Theorem C6_collections_duplicate_free
    (message : Message) (history : list Message) :
  exists r,
    regex_extract message history = Ok r
    /\ NoDup (bankAccounts r) /\ NoDup (upiIds r) /\ NoDup (phoneNumbers r)
    /\ NoDup (phishingLinks r) /\ NoDup (suspiciousKeywords r)
    /\ forall account,
        let found :=
          flat_map (fun m => BANK_ACCOUNT patterns (text m))
                   (message :: history) in
        In account found ->
        (forall c, In c found -> c = account \/ c = strip_separators account) ->
        bankAccounts r = [strip_separators account].
Proof.
  eexists. split; [apply regex_extract_ok|].
  cbn [bankAccounts upiIds phoneNumbers phishingLinks suspiciousKeywords].
  repeat (split; [apply list_set_NoDup|]).
  intros account Hin Hall.
  apply NoDup_singleton; [apply list_set_NoDup|].
  intro x. rewrite list_set_In, banks_in_In. split.
  - intros [c [Hc E]]. subst x. destruct (Hall c Hc) as [->| ->].
    + reflexivity.
    + apply strip_separators_idempotent.
  - intros ->. now exists account.
Qed.

(** Bank accounts, payment IDs, phone numbers and links of every message
    of the history are in the result. *)
Lemma history_artifacts_found
    (message : Message) (history : list Message) (hist_msg : Message) :
  In hist_msg history ->
  exists r,
    regex_extract message history = Ok r
    /\ incl (banks_in patterns hist_msg) (bankAccounts r)
    /\ incl (upis_in patterns hist_msg) (upiIds r)
    /\ incl (phones_in patterns hist_msg) (phoneNumbers r)
    /\ incl (links_in patterns hist_msg) (phishingLinks r).
Proof.
  intro Hin. eexists. split; [apply regex_extract_ok|].
  cbn [bankAccounts upiIds phoneNumbers phishingLinks].
  repeat split; intros x Hx; apply (proj2 (list_set_In _ _));
    apply in_flat_map; exists hist_msg; (split; [now right|exact Hx]).
Qed.

(** The suspicious keywords of the result are those of the current
    message alone: the history plays no part in them. *)
Lemma keywords_from_current_message_only
    (message : Message) (history : list Message) :
  exists r,
    regex_extract message history = Ok r
    /\ forall k,
        In k (suspiciousKeywords r) <->
        In k SUSPICIOUS_KEYWORDS
        /\ contains (lower (text message)) k = true.
Proof.
  eexists. split; [apply regex_extract_ok|].
  intro k. cbn [suspiciousKeywords]. rewrite list_set_In.
  unfold keywords_in. apply filter_In.
Qed.

(** Bank accounts, payment IDs, phone numbers and links only grow when a
    message joins the history and a new one arrives. *)
Lemma four_collections_monotone
    (message next : Message) (history : list Message) :
  exists r r',
    regex_extract message history = Ok r
    /\ regex_extract next (history ++ [message]) = Ok r'
    /\ incl (bankAccounts r) (bankAccounts r')
    /\ incl (upiIds r) (upiIds r')
    /\ incl (phoneNumbers r) (phoneNumbers r')
    /\ incl (phishingLinks r) (phishingLinks r').
Proof.
  do 2 eexists. split; [apply regex_extract_ok|].
  split; [apply regex_extract_ok|].
  cbn [bankAccounts upiIds phoneNumbers phishingLinks].
  repeat split; intros x Hx; apply (proj1 (list_set_In _ _)) in Hx;
    apply (proj2 (list_set_In _ _));
    apply in_flat_map in Hx; destruct Hx as [m [Hm Hx]];
    apply in_flat_map; exists m; (split; [|exact Hx]);
    right; apply in_or_app; (destruct Hm as [<-|Hm];
      [right; now left|now left]).
Qed.

(** C5: the bank accounts, payment IDs, phone numbers and links of a
    message of the history reach the result, but the suspicious terms do
    not: a keyword that occurs in a message of the history and not in
    the current message is absent from the result of the fallback
    extractor. *)
Theorem C5_history_keywords_not_scanned
    (message : Message) (history : list Message)
    (hist_msg : Message) (keyword : pystr) :
  In hist_msg history ->
  In keyword (keywords_in SUSPICIOUS_KEYWORDS lower hist_msg) ->
  contains (lower (text message)) keyword = false ->
  exists r,
    regex_extract message history = Ok r
    /\ incl (banks_in patterns hist_msg) (bankAccounts r)
    /\ incl (upis_in patterns hist_msg) (upiIds r)
    /\ incl (phones_in patterns hist_msg) (phoneNumbers r)
    /\ incl (links_in patterns hist_msg) (phishingLinks r)
    /\ ~ In keyword (suspiciousKeywords r).
Proof.
  intros Hin Hk Hc.
  destruct (history_artifacts_found message history hist_msg Hin) as [r [E [B [U [P L]]]]].
  exists r. repeat (split; [assumption|]).
  destruct (keywords_from_current_message_only message history)
    as [r' [E' K]].
  rewrite E in E'. inversion E'; subst r'.
  intro H. apply K in H. destruct H as [_ H]. congruence.
Qed.

(** C8: a suspicious term found in the current message is in the result
    of that call and, once the message has joined the history and a
    message without the term arrives, no longer in the result of the
    next call, while the other four collections only grow. *)
Theorem C8_keywords_shrink_as_history_grows
    (message next : Message) (history : list Message) (keyword : pystr) :
  In keyword (keywords_in SUSPICIOUS_KEYWORDS lower message) ->
  contains (lower (text next)) keyword = false ->
  exists r r',
    regex_extract message history = Ok r
    /\ regex_extract next (history ++ [message]) = Ok r'
    /\ incl (bankAccounts r) (bankAccounts r')
    /\ incl (upiIds r) (upiIds r')
    /\ incl (phoneNumbers r) (phoneNumbers r')
    /\ incl (phishingLinks r) (phishingLinks r')
    /\ In keyword (suspiciousKeywords r)
    /\ ~ In keyword (suspiciousKeywords r').
Proof.
  intros Hk Hc.
  destruct (four_collections_monotone message next history)
    as [r [r' [E [E' [B [U [P L]]]]]]].
  exists r, r'. repeat (split; [assumption|]).
  destruct (keywords_from_current_message_only message history)
    as [q [Eq K]].
  rewrite E in Eq. inversion Eq; subst q.
  destruct (keywords_from_current_message_only next (history ++ [message]))
    as [q' [Eq' K']].
  rewrite E' in Eq'. inversion Eq'; subst q'.
  split.
  - apply K. unfold keywords_in in Hk. now apply filter_In in Hk.
  - intro H. apply K' in H. destruct H as [_ H]. congruence.
Qed.

(** *** The external method and its fallback *)

Variable groq_client : bool.
Variable llm_completion : Message -> list Message -> res pystr.
Variable parse_response : pystr -> res ExtractedIntelligence.
Variable intelligence_truthy : ExtractedIntelligence -> bool.

Local Abbreviation extract :=
  (extract_intelligence patterns SUSPICIOUS_KEYWORDS lower list_set
     groq_client llm_completion parse_response intelligence_truthy).

(** Whatever the external method does, [extract_intelligence] returns an
    artifact set and never raises: without a client, when the call
    raises, when the answer is malformed and when the answer fails the
    truth test, it returns what the fallback extractor returns, which
    itself never raises; the extraction step of the orchestrator returns
    that set, and would return the empty set for an extractor that
    raises. *)
Lemma extraction_never_raises
    (message : Message) (history : list Message) (session : SessionState) :
  exists fallback,
    regex_extract message history = Ok fallback
    /\ (exists i,
           extract message history = Ok i
           /\ (i = fallback
               \/ exists t,
                   groq_client = true
                   /\ llm_completion message history = Ok t
                   /\ parse_response t = Ok i
                   /\ intelligence_truthy i = true))
    /\ (groq_client = false -> extract message history = Ok fallback)
    /\ (forall e,
           llm_completion message history = Raise e ->
           extract message history = Ok fallback)
    /\ (forall t e,
           llm_completion message history = Ok t ->
           parse_response t = Raise e ->
           extract message history = Ok fallback)
    /\ (forall t i,
           llm_completion message history = Ok t ->
           parse_response t = Ok i ->
           intelligence_truthy i = false ->
           extract message history = Ok fallback)
    /\ (exists i,
           extract message (conversationHistory session) = Ok i
           /\ _extract_intelligence_parallel extract message session = i)
    /\ (forall failing e,
           failing message (conversationHistory session) = Raise e ->
           _extract_intelligence_parallel failing message session
           = ExtractedIntelligence_new).
Proof.
  assert (T : forall m h, exists i, extract m h = Ok i
            /\ (regex_extract m h = Ok i
                \/ exists t, groq_client = true
                     /\ llm_completion m h = Ok t
                     /\ parse_response t = Ok i
                     /\ intelligence_truthy i = true)).
  { intros m h. unfold extract_intelligence, _llm_extract_intelligence.
    destruct groq_client; simpl.
    - destruct (llm_completion m h) as [t|e] eqn:L; simpl.
      + destruct (parse_response t) as [i|e] eqn:P; simpl.
        * destruct (intelligence_truthy i) eqn:B.
          -- exists i. split; [reflexivity|]. right. now exists t.
          -- rewrite regex_extract_ok. eauto.
        * rewrite regex_extract_ok. eauto.
      + rewrite regex_extract_ok. eauto.
    - rewrite regex_extract_ok. eauto. }
  eexists. split; [apply regex_extract_ok|].
  rewrite <- (regex_extract_ok message history).
  split; [|split; [|split; [|split; [|split; [|split]]]]].
  - destruct (T message history) as [i [E [F|F]]]; exists i; split; auto.
    left. rewrite regex_extract_ok in F. now inversion F.
  - intro C. unfold extract_intelligence. now rewrite C.
  - intros e L. unfold extract_intelligence, _llm_extract_intelligence.
    rewrite L. now destruct groq_client.
  - intros t e L P. unfold extract_intelligence, _llm_extract_intelligence.
    rewrite L. simpl. rewrite P. now destruct groq_client.
  - intros t i L P B. unfold extract_intelligence, _llm_extract_intelligence.
    rewrite L. simpl. rewrite P. simpl. rewrite B. now destruct groq_client.
  - destruct (T message (conversationHistory session)) as [i [E _]].
    exists i. split; [exact E|].
    unfold _extract_intelligence_parallel. now rewrite E.
  - intros failing e F. unfold _extract_intelligence_parallel. now rewrite F.
Qed.

(** C7: the empty answer of the external method does not reach the
    fallback.  The test [if llm_intelligence] is the truth value of the
    object, and an object whose class defines no truth test of its own is
    true whatever its lists hold: the answer with five empty lists is
    then returned as it is, without an exception, and the artifacts the
    fallback extractor finds in the same conversation are not
    returned. *)
Theorem C7_empty_answer_not_degraded
    (message : Message) (history : list Message) (answer : pystr) :
  (forall i, intelligence_truthy i = true) ->
  llm_completion message history = Ok answer ->
  parse_response answer = Ok ExtractedIntelligence_new ->
  extract_intelligence patterns SUSPICIOUS_KEYWORDS lower list_set
    true llm_completion parse_response intelligence_truthy message history
  = Ok ExtractedIntelligence_new
  /\ exists fallback,
      regex_extract message history = Ok fallback
      /\ (fallback <> ExtractedIntelligence_new ->
          extract_intelligence patterns SUSPICIOUS_KEYWORDS lower list_set
            true llm_completion parse_response intelligence_truthy
            message history
          <> Ok fallback).
Proof.
  intros T L P.
  assert (E : extract_intelligence patterns SUSPICIOUS_KEYWORDS lower list_set
                true llm_completion parse_response intelligence_truthy
                message history
              = Ok ExtractedIntelligence_new).
  { unfold extract_intelligence, _llm_extract_intelligence.
    rewrite L. simpl. rewrite P. simpl. now rewrite T. }
  split; [exact E|].
  eexists. split; [apply regex_extract_ok|].
  intros N H. rewrite E in H. apply N. congruence.
Qed.

End AggregatorFacts.

(** ** Facts about the turn pipeline *)

Lemma add_agent_note_notes (session : SessionState) (note : pystr) :
  agentNotes (add_agent_note session note) = agentNotes session ++ [note].
Proof. reflexivity. Qed.

Section OrchestratorFacts.

Variable extract : Message -> list Message -> res ExtractedIntelligence.
Variable update_session :
  SessionState -> Message -> ExtractedIntelligence -> SessionState.
Variable decide_strategy : SessionState -> Message -> res StrategyDecision.
Variable generate_response :
  Message -> list Message -> StrategyDecision -> res (option pystr).
Variable validate_response : pystr -> res (bool * option pystr).
Variable notes_client : bool.
Variable notes_completion :
  SessionState -> ExtractedIntelligence -> res pystr.

Local Abbreviation intelligence_of message session :=
  (_extract_intelligence_parallel extract message session).

(** The session once the artifacts of the turn are stored. *)
Local Abbreviation updated message session :=
  (update_session session message (intelligence_of message session)).

Local Abbreviation turn :=
  (process_message extract update_session decide_strategy generate_response
                   validate_response notes_client notes_completion).

Local Abbreviation add_notes :=
  (_add_intelligence_notes notes_client notes_completion).

(** The note step touches nothing but the notes, and appends at most
    one. *)
Lemma add_intelligence_notes_appends
    (session : SessionState) (intelligence : ExtractedIntelligence) :
  exists added,
    List.length added <= 1
    /\ agentNotes (add_notes session intelligence)
       = agentNotes session ++ added
    /\ conversationEnded (add_notes session intelligence)
       = conversationEnded session
    /\ finalDecisionReason (add_notes session intelligence)
       = finalDecisionReason session.
Proof.
  unfold _add_intelligence_notes.
  match goal with
  | |- context [match ?a with Some _ => _ | None => _ end] =>
      destruct a as [note|]
  end.
  - exists [note]. simpl. auto.
  - unfold _generate_fallback_notes.
    destruct (nonempty_list (fallback_notes_list session intelligence)).
    + eexists [_]. simpl. auto.
    + exists []. simpl. rewrite app_nil_r. auto.
Qed.

(** C2: when the safety guard rejects the candidate, the turn returns the
    fixed sentence, whatever the candidate was, and the notes of the
    session grow by one note recording the reason of the guard, followed
    by what the note step appends (at most one note). *)
Theorem C2_safety_gate_override
    (message : Message) (session : SessionState)
    (decision : StrategyDecision) (candidate : pystr)
    (error : option pystr) :
  decide_strategy (updated message session) message = Ok decision ->
  should_engage decision = true ->
  generate_response message
    (conversationHistory (updated message session)) decision
    = Ok (Some candidate) ->
  nonempty candidate = true ->
  validate_response candidate = Ok (false, error) ->
  let violation := lit "Safety guard triggered: " ++ format_optional error in
  fst (turn message session)
  = Ok (Some (lit "I'm not sure how to respond to that. Can you clarify?"))
  /\ exists added,
      List.length added <= 1
      /\ agentNotes (snd (turn message session))
         = agentNotes (updated message session) ++ [violation] ++ added
      /\ agentNotes
           (add_notes (add_agent_note (updated message session) violation)
                      (intelligence_of message session))
         = agentNotes (updated message session) ++ [violation] ++ added.
Proof.
  intros D E G N V violation.
  unfold process_message. rewrite D, E. simpl negb. cbv iota.
  rewrite G, N. simpl negb. cbv iota. rewrite V. simpl negb. cbv iota.
  fold violation.
  destruct (add_intelligence_notes_appends
              (add_agent_note (updated message session) violation)
              (intelligence_of message session))
    as [added [L [A _]]].
  rewrite add_agent_note_notes, <- app_assoc in A.
  split.
  - now destruct (goal_eqb (goal decision) WRAP_UP).
  - exists added. split; [exact L|]. split; [|exact A].
    destruct (goal_eqb (goal decision) WRAP_UP); simpl; exact A.
Qed.

(** C3: when the strategy declines to engage with the goal WRAP_UP, the
    turn marks the conversation as ended and returns no response; the
    persona stage, the safety guard and the note step take no part in
    it, whatever they would do. *)
Theorem C3_wrap_up_without_engaging
    (message : Message) (session : SessionState)
    (decision : StrategyDecision) :
  decide_strategy (updated message session) message = Ok decision ->
  should_engage decision = false ->
  goal decision = WRAP_UP ->
  conversationEnded (snd (turn message session)) = true
  /\ fst (turn message session) = Ok None
  /\ forall persona guard client completion,
      process_message extract update_session decide_strategy
                      persona guard client completion message session
      = (Ok None, set_conversationEnded (updated message session)).
Proof.
  intros D E W.
  assert (H : forall persona guard client completion,
             process_message extract update_session decide_strategy
                             persona guard client completion message session
             = (Ok None, set_conversationEnded (updated message session))).
  { intros. unfold process_message. now rewrite D, E, W. }
  rewrite H. auto.
Qed.

(** C4: when the strategy engages with the goal WRAP_UP, the persona
    stage and the safety guard run, and the conversation is marked as
    ended once a non-empty response went through the guard; when the
    persona stage yields no text the turn returns no response and leaves
    the session as the update of the turn left it, and so it does when a
    stage raises. *)
Theorem C4_wrap_up_after_last_response
    (message : Message) (session : SessionState)
    (decision : StrategyDecision) :
  decide_strategy (updated message session) message = Ok decision ->
  should_engage decision = true ->
  goal decision = WRAP_UP ->
  let generated :=
    generate_response message
      (conversationHistory (updated message session)) decision in
  (generated = Ok None \/ generated = Ok (Some []) ->
   turn message session = (Ok None, updated message session))
  /\ (forall e, generated = Raise e ->
      turn message session = (Raise e, updated message session))
  /\ (forall candidate, generated = Ok (Some candidate) ->
      nonempty candidate = true ->
      (forall e, validate_response candidate = Raise e ->
       turn message session = (Raise e, updated message session))
      /\ (forall is_valid error,
          validate_response candidate = Ok (is_valid, error) ->
          fst (turn message session)
          = Ok (Some (if is_valid then candidate else SAFE_FALLBACK))
          /\ conversationEnded (snd (turn message session)) = true)).
Proof.
  intros D E W generated. unfold process_message. rewrite D, E, W.
  simpl negb. cbv iota. fold generated.
  split; [|split].
  - intros [G|G]; rewrite G; reflexivity.
  - intros e G. rewrite G. reflexivity.
  - intros candidate G N. rewrite G, N. simpl negb. cbv iota. split.
    + intros e V. rewrite V. reflexivity.
    + intros is_valid error V. rewrite V.
      destruct is_valid; simpl; auto.
Qed.

(** C10: when the strategy declines to engage with a goal other than
    WRAP_UP, the turn returns no response and leaves the session as the
    update of the turn left it, so that the flag of the conversation
    keeps its value when that update does not write it; the persona
    stage, the safety guard and the note step take no part in it. *)
Theorem C10_declined_turn_leaves_flag
    (message : Message) (session : SessionState)
    (decision : StrategyDecision) :
  (forall s m i,
      conversationEnded (update_session s m i) = conversationEnded s) ->
  decide_strategy (updated message session) message = Ok decision ->
  should_engage decision = false ->
  goal decision <> WRAP_UP ->
  fst (turn message session) = Ok None
  /\ conversationEnded (snd (turn message session))
     = conversationEnded session
  /\ agentNotes (snd (turn message session))
     = agentNotes (updated message session)
  /\ forall persona guard client completion,
      process_message extract update_session decide_strategy
                      persona guard client completion message session
      = (Ok None, updated message session).
Proof.
  intros U D E W.
  assert (H : forall persona guard client completion,
             process_message extract update_session decide_strategy
                             persona guard client completion message session
             = (Ok None, updated message session)).
  { intros. unfold process_message. rewrite D, E. simpl negb. cbv iota.
    destruct (goal decision); try reflexivity. now elim W. }
  rewrite H. simpl. rewrite U. auto.
Qed.

(** C9, as the code has it: on a turn whose response went through the
    safety guard the note step runs once.  With a client, a non-empty
    answer of the external method, its surrounding quotes removed, is
    appended as one note.  Without a client, when the call raises and
    when the answer is empty, the rule-based notes are used: the parts
    "Scam detected: <reason>" for a non-empty reason and, for each
    non-empty collection among bank accounts, phone numbers, payment IDs
    and links, a part listing its values, joined by "; " into one note;
    with no part, that is with an empty reason and these four
    collections empty, nothing is appended. *)
Theorem C9_reasoning_note_after_guard
    (message : Message) (session : SessionState)
    (decision : StrategyDecision) (candidate : pystr)
    (is_valid : bool) (error : option pystr) :
  decide_strategy (updated message session) message = Ok decision ->
  should_engage decision = true ->
  generate_response message
    (conversationHistory (updated message session)) decision
    = Ok (Some candidate) ->
  nonempty candidate = true ->
  validate_response candidate = Ok (is_valid, error) ->
  let intelligence := intelligence_of message session in
  let guarded :=
    if is_valid then updated message session
    else add_agent_note (updated message session)
           (lit "Safety guard triggered: " ++ format_optional error) in
  let parts := fallback_notes_list (updated message session) intelligence in
  exists added,
    agentNotes (snd (turn message session)) = agentNotes guarded ++ added
    /\ (forall answer,
           notes_client = true ->
           notes_completion guarded intelligence = Ok answer ->
           nonempty (strip_quotes answer) = true ->
           added = [strip_quotes answer])
    /\ (notes_client = false
        \/ (exists e, notes_completion guarded intelligence = Raise e)
        \/ (exists answer,
               notes_completion guarded intelligence = Ok answer
               /\ nonempty (strip_quotes answer) = false) ->
        added = if nonempty_list parts then [join (lit "; ") parts] else [])
    /\ (parts = [] <->
        (finalDecisionReason (updated message session) = None
         \/ finalDecisionReason (updated message session) = Some [])
        /\ bankAccounts intelligence = []
        /\ phoneNumbers intelligence = []
        /\ upiIds intelligence = []
        /\ phishingLinks intelligence = []).
Proof.
  intros D E G N V intelligence guarded parts.
  assert (P : fallback_notes_list guarded intelligence = parts).
  { unfold guarded. now destruct is_valid. }
  assert (T : agentNotes (snd (turn message session))
              = agentNotes (add_notes guarded intelligence)).
  { unfold process_message. rewrite D, E. simpl negb. cbv iota.
    rewrite G, N. simpl negb. cbv iota. rewrite V.
    fold intelligence. unfold guarded.
    destruct is_valid; simpl negb; cbv iota;
      now destruct (goal_eqb (goal decision) WRAP_UP). }
  assert (F : agentNotes (_generate_fallback_notes guarded intelligence)
              = agentNotes guarded
                ++ if nonempty_list parts
                   then [join (lit "; ") parts] else []).
  { unfold _generate_fallback_notes. rewrite P.
    destruct (nonempty_list parts); simpl; [reflexivity|].
    now rewrite app_nil_r. }
  destruct (add_intelligence_notes_appends guarded intelligence)
    as [added [_ [A _]]].
  exists added. rewrite T. split; [exact A|].
  split; [|split].
  - intros answer C R S.
    unfold _add_intelligence_notes, _generate_reasoning_notes in A.
    rewrite C, R in A. simpl in A. rewrite S in A. simpl in A.
    now apply app_inv_head in A.
  - intros H. apply (app_inv_head (agentNotes guarded)).
    rewrite <- A, <- F.
    unfold _add_intelligence_notes, _generate_reasoning_notes.
    destruct H as [C|[[e R]|[answer [R S]]]].
    + now rewrite C.
    + rewrite R. now destruct notes_client.
    + rewrite R. simpl. rewrite S. now destruct notes_client.
  - unfold parts, fallback_notes_list.
    destruct (finalDecisionReason (updated message session)) as [[|c reason]|];
      destruct (bankAccounts intelligence);
      destruct (phoneNumbers intelligence);
      destruct (upiIds intelligence);
      destruct (phishingLinks intelligence);
      simpl;
      (split;
       [ intro H; try discriminate H; repeat split; auto
       | intros [[H|H] [Hb [Hp [Hu Hl]]]]; first [reflexivity | congruence] ]).
Qed.

End OrchestratorFacts.

(** ** The model on concrete conversations *)

Lemma sample_list_set_NoDup (xs : list pystr) : NoDup (Sample.list_set xs).
Proof.
  unfold Sample.list_set. apply NoDup_rev, NoDup_nodup.
Qed.

Lemma sample_list_set_In (xs : list pystr) (x : pystr) :
  In x (Sample.list_set xs) <-> In x xs.
Proof.
  unfold Sample.list_set.
  rewrite <- in_rev, nodup_In, <- in_rev. reflexivity.
Qed.

(** The three values of the specification: a trunk prefix with
    separators, a bare country code, and a value too short to be a
    number. *)
Example phone_examples :
  format_phone (strip_separators (lit "0-9876-543-210"))
  = Ok (Some (lit "+919876543210"))
  /\ format_phone (strip_separators (lit "919876543210"))
     = Ok (Some (lit "+919876543210"))
  /\ format_phone (strip_separators (lit "98765")) = Ok None.
Proof. repeat split. Qed.

Lemma C1_witness :
  (forall xs x, In x (Sample.list_set xs) <-> In x xs)
  /\ format_phone (lit "09876543210") = Ok (Some (lit "+919876543210"))
  /\ format_phone (lit "9876543210") = Ok (Some (lit "+919876543210"))
  /\ format_phone (lit "5876543210") = Ok None
  /\ exists r,
      Sample.regex_extract (Sample.msg "call 98765")
                           [Sample.msg "or 0-9876-543-210"] = Ok r
      /\ In (lit "+919876543210") (phoneNumbers r).
Proof.
  split; [exact sample_list_set_In|].
  destruct (C1_phone_normalization Sample.patterns Sample.keywords
              Sample.lower Sample.list_set sample_list_set_In
              (Sample.msg "call 98765") [Sample.msg "or 0-9876-543-210"])
    as [shapes [r [E M]]].
  split; [|split; [|split]].
  - apply (proj1 (proj2 (proj2 (shapes (lit "09876543210")))));
      reflexivity.
  - apply (proj1 (proj2 (proj2 (proj2 (shapes (lit "9876543210"))))) eq_refl).
  - apply (proj1 (proj2 (proj2 (proj2 (shapes (lit "5876543210"))))) eq_refl).
  - exists r. split; [exact E|]. apply M.
    exists (Sample.msg "or 0-9876-543-210"), (lit "0-9876-543-210").
    split; [right; left; reflexivity|].
    split; [vm_compute; left; reflexivity|reflexivity].
Defined.

Lemma C5_witness :
  let old := Sample.msg "urgent pay to 1234-5678-9012" in
  In (lit "urgent") (keywords_in Sample.keywords Sample.lower old)
  /\ exists r,
      Sample.regex_extract (Sample.msg "hello") [old] = Ok r
      /\ In (lit "123456789012") (bankAccounts r)
      /\ ~ In (lit "urgent") (suspiciousKeywords r).
Proof.
  intro old.
  assert (K : In (lit "urgent") (keywords_in Sample.keywords Sample.lower old))
    by (left; reflexivity).
  split; [exact K|].
  destruct (C5_history_keywords_not_scanned Sample.patterns Sample.keywords
              Sample.lower Sample.list_set sample_list_set_In
              (Sample.msg "hello") [old] old (lit "urgent")
              (or_introl eq_refl) K eq_refl)
    as [r [E [B [_ [_ [_ N]]]]]].
  exists r. split; [exact E|]. split; [|exact N].
  apply B. left. reflexivity.
Defined.

Lemma C6_witness :
  let message := Sample.msg "acct 1234-5678-9012 or 123456789012" in
  BANK_ACCOUNT Sample.patterns (text message)
  = [lit "1234-5678-9012"; lit "123456789012"]
  /\ exists r,
      Sample.regex_extract message [] = Ok r
      /\ NoDup (phoneNumbers r)
      /\ bankAccounts r = [lit "123456789012"].
Proof.
  intro message. split; [reflexivity|].
  destruct (C6_collections_duplicate_free Sample.patterns Sample.keywords
              Sample.lower Sample.list_set
              sample_list_set_NoDup sample_list_set_In message [])
    as [r [E [_ [_ [P [_ [_ One]]]]]]].
  exists r. split; [exact E|]. split; [exact P|].
  apply (One (lit "1234-5678-9012")).
  - left. reflexivity.
  - intros c H. vm_compute in H.
    destruct H as [<-|[<-|[]]]; [left|right]; reflexivity.
Defined.

Lemma extraction_never_raises_example :
  let message := Sample.msg "send to 0-9876-543-210" in
  exists i,
    Sample.extract message [] = Ok i
    /\ Sample.regex_extract message [] = Ok i
    /\ extract_intelligence Sample.patterns Sample.keywords Sample.lower
         Sample.list_set true Sample.llm_answers Sample.parse_empty
         Sample.truthy_if_nonempty message []
       = Ok i
    /\ _extract_intelligence_parallel Sample.extract message Sample.session0
       = i
    /\ _extract_intelligence_parallel
         (fun _ _ => Raise IndexError) message Sample.session0
       = ExtractedIntelligence_new.
Proof.
  intro message.
  destruct (extraction_never_raises Sample.patterns Sample.keywords
              Sample.lower Sample.list_set true Sample.llm_raises
              Sample.parse_fails Sample.truthy_if_nonempty
              message [] Sample.session0)
    as [fallback [F [_ [_ [R [_ [_ [[i [E S]] X]]]]]]]].
  destruct (extraction_never_raises Sample.patterns Sample.keywords
              Sample.lower Sample.list_set true Sample.llm_answers
              Sample.parse_empty Sample.truthy_if_nonempty
              message [] Sample.session0)
    as [fallback' [F' [_ [_ [_ [_ [Empty _]]]]]]].
  rewrite F in F'. injection F' as <-.
  exists fallback.
  pose proof (R _ eq_refl) as Ef.
  split; [exact Ef|]. split; [exact F|]. split; [|split].
  - exact (Empty (lit "{}") ExtractedIntelligence_new eq_refl eq_refl eq_refl).
  - change (conversationHistory Sample.session0) with (@nil Message) in E.
    rewrite Ef in E. injection E as ->. exact S.
  - apply (X (fun _ _ => Raise IndexError) IndexError eq_refl).
Defined.

Lemma C7_witness :
  let message := Sample.msg "send to 0-9876-543-210" in
  let extract :=
    extract_intelligence Sample.patterns Sample.keywords Sample.lower
      Sample.list_set true Sample.llm_answers Sample.parse_empty
      (fun _ => true) in
  extract message [] = Ok ExtractedIntelligence_new
  /\ exists fallback,
      Sample.regex_extract message [] = Ok fallback
      /\ In (lit "+919876543210") (phoneNumbers fallback)
      /\ extract message [] <> Ok fallback.
Proof.
  intros message extract.
  destruct (C7_empty_answer_not_degraded Sample.patterns Sample.keywords
              Sample.lower Sample.list_set Sample.llm_answers
              Sample.parse_empty (fun _ => true) message [] (lit "{}")
              (fun _ => eq_refl) eq_refl eq_refl)
    as [E [fallback [F N]]].
  split; [exact E|].
  exists fallback. split; [exact F|].
  assert (P : In (lit "+919876543210") (phoneNumbers fallback)).
  { vm_compute in F. injection F as <-. now left. }
  split; [exact P|].
  apply N. intro Z. rewrite Z in P. destruct P.
Defined.

Lemma C8_witness :
  let message := Sample.msg "urgent call 9876543210" in
  let next := Sample.msg "hello" in
  exists r r',
    Sample.regex_extract message [] = Ok r
    /\ Sample.regex_extract next [message] = Ok r'
    /\ incl (phoneNumbers r) (phoneNumbers r')
    /\ In (lit "urgent") (suspiciousKeywords r)
    /\ ~ In (lit "urgent") (suspiciousKeywords r').
Proof.
  intros message next.
  destruct (C8_keywords_shrink_as_history_grows Sample.patterns
              Sample.keywords Sample.lower Sample.list_set sample_list_set_In
              message next [] (lit "urgent") (or_introl eq_refl) eq_refl)
    as [r [r' [E [E' [_ [_ [P [_ [K N]]]]]]]]].
  exists r, r'. repeat (split; [assumption|]). exact N.
Defined.

Lemma C2_witness :
  let message := Sample.msg "otp" in
  Sample.validate_response (lit "My OTP is 1234")
  = Ok (false, Some (lit "forbidden phrase"))
  /\ fst (Sample.turn message Sample.session0) = Ok (Some SAFE_FALLBACK)
  /\ exists added,
      List.length added <= 1
      /\ agentNotes (snd (Sample.turn message Sample.session0))
         = [lit "Safety guard triggered: forbidden phrase"] ++ added.
Proof.
  intro message. split; [reflexivity|].
  destruct (C2_safety_gate_override Sample.extract Sample.update_session
              Sample.decide_strategy Sample.generate_response
              Sample.validate_response false Sample.notes_raises
              message Sample.session0
              (mkDecision CONTINUE true (lit "engage"))
              (lit "My OTP is 1234") (Some (lit "forbidden phrase"))
              eq_refl eq_refl eq_refl eq_refl eq_refl)
    as [R [added [L [A _]]]].
  split; [exact R|]. exists added. split; [exact L|exact A].
Defined.

Lemma C3_witness :
  let message := Sample.msg "bye" in
  Sample.decide_strategy
    (Sample.update_session Sample.session0 message
       (_extract_intelligence_parallel Sample.extract message Sample.session0))
    message
  = Ok (mkDecision WRAP_UP false (lit "done"))
  /\ conversationEnded Sample.session0 = false
  /\ conversationEnded (snd (Sample.turn message Sample.session0)) = true
  /\ fst (Sample.turn message Sample.session0) = Ok None
  /\ fst (process_message Sample.extract Sample.update_session
            Sample.decide_strategy Sample.generate_raises
            Sample.validate_raises true Sample.notes_answers
            message Sample.session0)
     = Ok None.
Proof.
  intro message. split; [reflexivity|]. split; [reflexivity|].
  destruct (C3_wrap_up_without_engaging Sample.extract Sample.update_session
              Sample.decide_strategy Sample.generate_response
              Sample.validate_response false Sample.notes_raises
              message Sample.session0
              (mkDecision WRAP_UP false (lit "done"))
              eq_refl eq_refl eq_refl)
    as [F [R I]].
  split; [exact F|]. split; [exact R|].
  now rewrite (I Sample.generate_raises Sample.validate_raises true
                 Sample.notes_answers).
Defined.

Lemma C4_witness :
  let closing := Sample.msg "last" in
  Sample.decide_strategy
    (Sample.update_session Sample.session0 closing
       (_extract_intelligence_parallel Sample.extract closing Sample.session0))
    closing
  = Ok (mkDecision WRAP_UP true (lit "closing"))
  /\ fst (Sample.turn closing Sample.session0)
     = Ok (Some (lit "Who is this?"))
  /\ conversationEnded (snd (Sample.turn closing Sample.session0)) = true.
Proof.
  intro closing. split; [reflexivity|].
  destruct (C4_wrap_up_after_last_response Sample.extract
              Sample.update_session Sample.decide_strategy
              Sample.generate_response Sample.validate_response
              false Sample.notes_raises closing Sample.session0
              (mkDecision WRAP_UP true (lit "closing"))
              eq_refl eq_refl eq_refl)
    as [_ [_ G]].
  destruct (G (lit "Who is this?") eq_refl eq_refl) as [_ V].
  exact (V true None eq_refl).
Defined.

Lemma C10_witness :
  let message := Sample.msg "skip" in
  (forall s m i,
      conversationEnded (Sample.update_session s m i) = conversationEnded s)
  /\ Sample.decide_strategy
       (Sample.update_session Sample.session0 message
          (_extract_intelligence_parallel Sample.extract message
             Sample.session0))
       message
     = Ok (mkDecision DELAY false (lit "wait"))
  /\ fst (Sample.turn message Sample.session0) = Ok None
  /\ conversationEnded (snd (Sample.turn message Sample.session0)) = false
  /\ agentNotes (snd (Sample.turn message Sample.session0)) = [].
Proof.
  intro message.
  assert (U : forall s m i,
             conversationEnded (Sample.update_session s m i)
             = conversationEnded s) by reflexivity.
  split; [exact U|]. split; [reflexivity|].
  destruct (C10_declined_turn_leaves_flag Sample.extract
              Sample.update_session Sample.decide_strategy
              Sample.generate_response Sample.validate_response
              false Sample.notes_raises message Sample.session0
              (mkDecision DELAY false (lit "wait"))
              U eq_refl eq_refl ltac:(discriminate))
    as [R [F [A _]]].
  split; [exact R|]. split; [exact F|exact A].
Defined.

(** An engaging turn that goes through the safety guard and appends no
    note: no client, no stored reason, nothing extracted.  The
    rule-based note lists the values of a collection, not their number,
    and does not mention the suspicious terms. *)
Lemma C9_counterexample :
  let message := Sample.msg "hello" in
  fst (Sample.turn message Sample.session0) = Ok (Some (lit "Who is this?"))
  /\ agentNotes (snd (Sample.turn message Sample.session0))
     = agentNotes Sample.session0
  /\ agentNotes
       (_generate_fallback_notes Sample.session0
          (mkIntelligence [lit "111122223333"; lit "444455556666"]
                          [] [] [] []))
     = [lit "Extracted bank account(s): 111122223333, 444455556666"]
  /\ _generate_fallback_notes Sample.session0
       (mkIntelligence [] [] [] [] [lit "urgent"; lit "otp"])
     = Sample.session0.
Proof. repeat split. Qed.

Lemma C9_witness :
  let message := Sample.msg "pay 1234-5678-9012 urgent" in
  let session :=
    mkSession (lit "s1") [] ExtractedIntelligence_new false
              (Some (lit "asks for money")) [] in
  fst (Sample.turn message session) = Ok (Some (lit "Who is this?"))
  /\ agentNotes (snd (Sample.turn message session))
     = [lit "Scam detected: asks for money; Extracted bank account(s): 123456789012"].
Proof.
  intros message session. split; [reflexivity|].
  destruct (C9_reasoning_note_after_guard Sample.extract
              Sample.update_session Sample.decide_strategy
              Sample.generate_response Sample.validate_response
              false Sample.notes_raises message session
              (mkDecision CONTINUE true (lit "engage"))
              (lit "Who is this?") true None
              eq_refl eq_refl eq_refl eq_refl eq_refl)
    as [added [A [_ [F _]]]].
  unfold Sample.turn. rewrite A, (F (or_introl eq_refl)). reflexivity.
Defined.

(** ** Substrings *)

Lemma startswith_iff (p s : pystr) :
  startswith s p = true <-> exists t, s = p ++ t.
Proof.
  revert s. induction p as [|c p IH]; intro s; simpl.
  - split; [intros _; now exists s|reflexivity].
  - destruct s as [|d s].
    + split; [discriminate|]. intros [t H]. discriminate H.
    + rewrite andb_true_iff, N.eqb_eq, IH. split.
      * intros [-> [t ->]]. now exists t.
      * intros [t H]. injection H as -> ->. split; [reflexivity|now exists t].
Qed.

Lemma startswith_contains (h n : pystr) :
  startswith h n = true -> contains h n = true.
Proof. intro H. destruct h; simpl; now rewrite H. Qed.

Lemma contains_iff (h n : pystr) :
  contains h n = true <-> exists a b, h = a ++ n ++ b.
Proof.
  split.
  - induction h as [|x h IH]; simpl; intro H.
    + rewrite orb_false_r in H. apply startswith_iff in H.
      destruct H as [t H]. now exists [], t.
    + apply orb_prop in H. destruct H as [H|H].
      * apply startswith_iff in H. destruct H as [t H]. now exists [], t.
      * destruct (IH H) as [a [b ->]]. now exists (x :: a), b.
  - intros [a [b ->]]. induction a as [|x a IH].
    + apply startswith_contains, startswith_iff. now exists b.
    + simpl. rewrite IH. apply orb_true_r.
Qed.

Lemma contains_trans (a b c : pystr) :
  contains a b = true -> contains b c = true -> contains a c = true.
Proof.
  rewrite !contains_iff. intros [p [q ->]] [r [s ->]].
  exists (p ++ r), (s ++ q). now rewrite <- !app_assoc.
Qed.

Lemma contains_refl (a : pystr) : contains a a = true.
Proof. apply contains_iff. exists [], []. now rewrite app_nil_r. Qed.

Lemma contains_app_l (a b n : pystr) :
  contains a n = true -> contains (a ++ b) n = true.
Proof.
  rewrite !contains_iff. intros [p [q ->]].
  exists p, (q ++ b). now rewrite <- !app_assoc.
Qed.

Lemma contains_app_r (a b n : pystr) :
  contains b n = true -> contains (a ++ b) n = true.
Proof.
  rewrite !contains_iff. intros [p [q ->]].
  exists (a ++ p), q. now rewrite <- !app_assoc.
Qed.

Lemma strip_separators_clean (s : pystr) :
  forallb (fun c => negb (is_separator c)) (strip_separators s) = true.
Proof.
  unfold strip_separators. apply forallb_forall. intros c H.
  now apply filter_In in H.
Qed.

Lemma strip_separators_fixed (s : pystr) :
  forallb (fun c => negb (is_separator c)) s = true ->
  strip_separators s = s.
Proof.
  unfold strip_separators. induction s as [|c s IH]; simpl; [reflexivity|].
  intro H. apply andb_prop in H. destruct H as [H1 H2].
  rewrite H1. now rewrite IH.
Qed.

(** ** The canonical form of phone numbers *)

Lemma format_phone_inv (c x : pystr) :
  format_phone c = Ok (Some x) ->
  (startswith c (lit "+91") = true /\ len c = 13 /\ x = c)
  \/ (startswith c (lit "91") = true /\ len c = 12 /\ x = lit "+" ++ c)
  \/ (startswith c (lit "0") = true /\ len c = 11
      /\ x = lit "+91" ++ tl c)
  \/ (len c = 10 /\ leading_mobile_digit c = true /\ x = lit "+91" ++ c).
Proof.
  intro H. pose proof H as H0. unfold format_phone in H0.
  destruct (startswith c (lit "+91") && (len c =? 13)) eqn:E1.
  { apply andb_prop in E1. destruct E1 as [A B]. apply Nat.eqb_eq in B.
    injection H0 as <-. auto. }
  destruct (startswith c (lit "91") && (len c =? 12)) eqn:E2.
  { apply andb_prop in E2. destruct E2 as [A B]. apply Nat.eqb_eq in B.
    injection H0 as <-. auto. }
  destruct (startswith c (lit "0") && (len c =? 11)) eqn:E3.
  { apply andb_prop in E3. destruct E3 as [A B]. apply Nat.eqb_eq in B.
    injection H0 as <-. auto 6. }
  destruct (negb (startswith c (lit "+")) && (len c =? 10)) eqn:E4;
    [|discriminate H0].
  apply andb_prop in E4. destruct E4 as [_ B]. apply Nat.eqb_eq in B.
  rewrite (format_phone_len10 c B) in H.
  destruct (leading_mobile_digit c); [|discriminate H].
  injection H as <-. auto 6.
Qed.

(** A value the chain keeps is "+91" followed by ten characters, and
    holds no dash, dot or white space when the candidate was cleaned. *)
Lemma format_phone_canonical (c x : pystr) :
  format_phone c = Ok (Some x) ->
  startswith x (lit "+91") = true
  /\ len x = 13
  /\ (forallb (fun ch => negb (is_separator ch)) c = true ->
      forallb (fun ch => negb (is_separator ch)) x = true).
Proof.
  intro H. apply format_phone_inv in H.
  destruct H as [[A [L ->]]|[[A [L ->]]|[[A [L ->]]|[L [_ ->]]]]].
  - auto.
  - apply startswith_iff in A. destruct A as [t ->].
    repeat split; [unfold len in *; simpl in *; lia|].
    intro F. simpl in *. exact F.
  - destruct c as [|d c]; [discriminate L|].
    repeat split; [unfold len in *; simpl in *; lia|].
    intro F. simpl in *. apply andb_prop in F. now destruct F.
  - repeat split; [unfold len in *; simpl in *; lia|].
    intro F. simpl. exact F.
Qed.

(** X2: normalising is idempotent: a kept value, read again as a
    candidate, is kept unchanged. *)
Theorem format_phone_idempotent (candidate x : pystr) :
  format_phone (strip_separators candidate) = Ok (Some x) ->
  format_phone (strip_separators x) = Ok (Some x).
Proof.
  intro H.
  destruct (format_phone_canonical _ _ H) as [P [L F]].
  rewrite (strip_separators_fixed x (F (strip_separators_clean candidate))).
  unfold format_phone. rewrite P, L. reflexivity.
Qed.

Lemma format_phone_variants (d : pystr) :
  len d = 10 ->
  format_phone (lit "+91" ++ d) = Ok (Some (lit "+91" ++ d))
  /\ format_phone (lit "91" ++ d) = Ok (Some (lit "+91" ++ d))
  /\ format_phone (lit "0" ++ d) = Ok (Some (lit "+91" ++ d)).
Proof.
  intro L. unfold format_phone, len in *. simpl. rewrite L. simpl.
  auto.
Qed.

Lemma flat_map_nil {A B : Type} (f : A -> list B) (l : list A) :
  (forall a, In a l -> f a = []) -> flat_map f l = [].
Proof.
  induction l as [|a l IH]; intro H; [reflexivity|].
  simpl. rewrite (H a (or_introl eq_refl)). simpl.
  apply IH. intros a' H'. apply H. now right.
Qed.

Lemma filter_nil {A : Type} (f : A -> bool) (l : list A) :
  (forall a, In a l -> f a = false) -> filter f l = [].
Proof.
  induction l as [|a l IH]; intro H; [reflexivity|].
  simpl. rewrite (H a (or_introl eq_refl)).
  apply IH. intros a' H'. apply H. now right.
Qed.

(** ** More facts about the fallback extractor *)

Section AggregatorInvariants.

Variable patterns : RegexPatterns.
Variable SUSPICIOUS_KEYWORDS : list pystr.
Variable lower : pystr -> pystr.
Variable list_set : list pystr -> list pystr.
Hypothesis list_set_NoDup : forall xs, NoDup (list_set xs).
Hypothesis list_set_In : forall xs x, In x (list_set xs) <-> In x xs.

Local Abbreviation regex_extract :=
  (_regex_extract_intelligence patterns SUSPICIOUS_KEYWORDS lower list_set).

Lemma phones_in_In (msgs : list Message) (x : pystr) :
  In x (flat_map (phones_in patterns) msgs) <->
  exists m candidate,
    In m msgs /\ In candidate (PHONE_NUMBER patterns (text m))
    /\ format_phone (strip_separators candidate) = Ok (Some x).
Proof.
  rewrite in_flat_map. split.
  - intros [m [Hm Hx]]. unfold phones_in in Hx.
    apply in_flat_map in Hx. destruct Hx as [c [Hc Hx]].
    apply (phone_of_In lower) in Hx. now exists m, c.
  - intros [m [c [Hm [Hc Hx]]]]. exists m. split; [exact Hm|].
    unfold phones_in. apply in_flat_map. exists c. split; [exact Hc|].
    now apply (phone_of_In lower).
Qed.

Lemma list_set_nil : list_set [] = [].
Proof.
  destruct (list_set []) as [|a l] eqn:E; [reflexivity|].
  exfalso. apply (proj1 (list_set_In [] a)). rewrite E. now left.
Qed.

(** X1: every phone number the fallback extractor returns is in the one
    canonical form: "+91" followed by ten characters, thirteen in all,
    with no dash, dot or white space left in it. *)
Theorem phone_numbers_canonical
    (message : Message) (history : list Message) :
  exists r,
    regex_extract message history = Ok r
    /\ forall x,
        In x (phoneNumbers r) ->
        startswith x (lit "+91") = true
        /\ len x = 13
        /\ forallb (fun ch => negb (is_separator ch)) x = true.
Proof.
  eexists. split; [apply regex_extract_ok|].
  intros x H. cbn [phoneNumbers] in H.
  apply (proj1 (list_set_In _ _)) in H. apply phones_in_In in H.
  destruct H as [m [c [_ [_ H]]]].
  destruct (format_phone_canonical _ _ H) as [P [L F]].
  repeat split; auto. apply F, strip_separators_clean.
Qed.

(** X3: the written forms of one number are merged: when every phone
    candidate of the conversation, once cleaned, is the ten characters
    [d] with "+91", "91" or "0" in front, the result holds the single
    phone number "+91" followed by [d]. *)
Theorem phone_variants_merged
    (message : Message) (history : list Message) (d : pystr) :
  len d = 10 ->
  (exists m candidate,
      In m (message :: history)
      /\ In candidate (PHONE_NUMBER patterns (text m))) ->
  (forall m candidate,
      In m (message :: history) ->
      In candidate (PHONE_NUMBER patterns (text m)) ->
      strip_separators candidate = lit "+91" ++ d
      \/ strip_separators candidate = lit "91" ++ d
      \/ strip_separators candidate = lit "0" ++ d) ->
  exists r,
    regex_extract message history = Ok r
    /\ phoneNumbers r = [lit "+91" ++ d].
Proof.
  intros L [m0 [c0 [Hm0 Hc0]]] Hall.
  destruct (format_phone_variants d L) as [V1 [V2 V3]].
  assert (N : forall m c, In m (message :: history) ->
              In c (PHONE_NUMBER patterns (text m)) ->
              format_phone (strip_separators c) = Ok (Some (lit "+91" ++ d))).
  { intros m c Hm Hc. destruct (Hall m c Hm Hc) as [E|[E|E]];
      rewrite E; assumption. }
  eexists. split; [apply regex_extract_ok|].
  cbn [phoneNumbers]. apply NoDup_singleton; [apply list_set_NoDup|].
  intro x. rewrite list_set_In, phones_in_In. split.
  - intros [m [c [Hm [Hc Hx]]]]. rewrite (N m c Hm Hc) in Hx.
    now injection Hx as <-.
  - intros ->. exists m0, c0. repeat split; auto. now apply (N m0).
Qed.

(** X4: no bank account of the result holds a dash, a dot or white
    space, and cleaning a stored bank account again leaves it as it
    is. *)
Theorem bank_accounts_clean
    (message : Message) (history : list Message) :
  exists r,
    regex_extract message history = Ok r
    /\ forall x,
        In x (bankAccounts r) ->
        forallb (fun ch => negb (is_separator ch)) x = true
        /\ strip_separators x = x.
Proof.
  eexists. split; [apply regex_extract_ok|].
  intros x H. cbn [bankAccounts] in H.
  apply (proj1 (list_set_In _ _)) in H. apply banks_in_In in H.
  destruct H as [c [_ ->]]. split.
  - apply strip_separators_clean.
  - apply strip_separators_idempotent.
Qed.

(** X5: the result depends on the history only as a set of messages:
    two histories with the same messages, in any order and with any
    repetition, give collections with the same members. *)
Theorem history_order_irrelevant
    (message : Message) (history history' : list Message) :
  (forall m, In m history <-> In m history') ->
  exists r r',
    regex_extract message history = Ok r
    /\ regex_extract message history' = Ok r'
    /\ (forall x, In x (bankAccounts r) <-> In x (bankAccounts r'))
    /\ (forall x, In x (upiIds r) <-> In x (upiIds r'))
    /\ (forall x, In x (phoneNumbers r) <-> In x (phoneNumbers r'))
    /\ (forall x, In x (phishingLinks r) <-> In x (phishingLinks r'))
    /\ (forall x,
           In x (suspiciousKeywords r) <-> In x (suspiciousKeywords r')).
Proof.
  intro Same.
  assert (F : forall (f : Message -> list pystr) x,
             In x (list_set (flat_map f (message :: history)))
             <-> In x (list_set (flat_map f (message :: history')))).
  { intros f x. rewrite !list_set_In, !in_flat_map.
    split; intros [m [Hm Hx]]; exists m; (split; [|exact Hx]);
      (destruct Hm as [Hm|Hm]; [now left|right; now apply Same]). }
  do 2 eexists. split; [apply regex_extract_ok|].
  split; [apply regex_extract_ok|].
  cbn [bankAccounts upiIds phoneNumbers phishingLinks suspiciousKeywords].
  repeat split; try apply F; auto.
Qed.

(** X6: the suspicious terms of the result are taken from the keyword
    list, each at most once, so there are never more of them than the
    list has entries. *)
Theorem keywords_bounded (message : Message) (history : list Message) :
  exists r,
    regex_extract message history = Ok r
    /\ incl (suspiciousKeywords r) SUSPICIOUS_KEYWORDS
    /\ NoDup (suspiciousKeywords r)
    /\ List.length (suspiciousKeywords r) <= List.length SUSPICIOUS_KEYWORDS.
Proof.
  eexists. split; [apply regex_extract_ok|].
  cbn [suspiciousKeywords].
  assert (I : incl (list_set (keywords_in SUSPICIOUS_KEYWORDS lower message))
                   SUSPICIOUS_KEYWORDS).
  { intros k H. apply (proj1 (list_set_In _ _)) in H.
    unfold keywords_in in H. now apply filter_In in H. }
  split; [exact I|]. split; [apply list_set_NoDup|].
  apply NoDup_incl_length; [apply list_set_NoDup|exact I].
Qed.

(** X7: when no pattern finds a usable candidate in the message or in
    the history and no keyword occurs in the message, the result is the
    empty artifact set. *)
Theorem nothing_found_gives_empty
    (message : Message) (history : list Message) :
  (forall m, In m (message :: history) ->
             BANK_ACCOUNT patterns (text m) = []
             /\ UPI_ID patterns (text m) = []
             /\ URL patterns (text m) = []
             /\ forall candidate,
                 In candidate (PHONE_NUMBER patterns (text m)) ->
                 format_phone (strip_separators candidate) = Ok None) ->
  (forall k, In k SUSPICIOUS_KEYWORDS ->
             contains (lower (text message)) k = false) ->
  regex_extract message history = Ok ExtractedIntelligence_new.
Proof.
  intros Hn Hk. rewrite regex_extract_ok.
  rewrite (flat_map_nil (banks_in patterns)), (flat_map_nil (upis_in patterns)),
    (flat_map_nil (phones_in patterns)), (flat_map_nil (links_in patterns)).
  - unfold keywords_in. rewrite filter_nil by exact Hk.
    rewrite list_set_nil. reflexivity.
  - intros m H. unfold links_in. apply (Hn m H).
  - intros m H. unfold phones_in.
    destruct (Hn m H) as [_ [_ [_ P]]].
    apply flat_map_nil. intros c Hc. unfold phone_of.
    now rewrite (P c Hc).
  - intros m H. unfold upis_in. apply (Hn m H).
  - intros m H. unfold banks_in. destruct (Hn m H) as [B _].
    now rewrite B.
Qed.

(** *** The external method *)

Variable llm_completion : Message -> list Message -> res pystr.
Variable parse_response : pystr -> res ExtractedIntelligence.
Variable intelligence_truthy : ExtractedIntelligence -> bool.

(** X8: an answer of the external method that passes the truth test is
    returned as it was parsed: the patterns are not run, nothing is
    normalised and nothing is deduplicated. *)
Theorem external_answer_returned_verbatim
    (message : Message) (history : list Message)
    (answer : pystr) (i : ExtractedIntelligence) :
  llm_completion message history = Ok answer ->
  parse_response answer = Ok i ->
  intelligence_truthy i = true ->
  forall patterns' keywords' lower' list_set',
    extract_intelligence patterns' keywords' lower' list_set' true
      llm_completion parse_response intelligence_truthy message history
    = Ok i.
Proof.
  intros L P T patterns' keywords' lower' list_set'.
  unfold extract_intelligence, _llm_extract_intelligence.
  rewrite L. simpl. rewrite P. simpl. now rewrite T.
Qed.

End AggregatorInvariants.

(** ** More facts about the turn pipeline *)

(** X9: removing the quotes undoes quoting: an answer wrapped in one
    pair of quote characters gives back what was wrapped, a lone quote
    character gives the empty string, and an answer that does not both
    start and end with a quote character is left as it is. *)
Theorem strip_quotes_unwraps :
  (forall s, strip_quotes (dq ++ s ++ dq) = s)
  /\ strip_quotes dq = []
  /\ (forall r,
         startswith r dq = false \/ endswith r dq = false ->
         strip_quotes r = r).
Proof.
  split; [|split].
  - intro s. unfold strip_quotes, endswith, dq.
    change ([34%N] ++ s ++ [34%N]) with (34%N :: s ++ [34%N]).
    cbn [rev tl]. rewrite rev_app_distr. cbn [rev app startswith].
    rewrite N.eqb_refl. cbn [andb].
    apply removelast_last.
  - reflexivity.
  - intros r [H|H]; unfold strip_quotes; fold dq; rewrite H;
      [reflexivity|apply andb_false_r || now rewrite andb_false_r].
Qed.

Lemma join_contains (sep : pystr) (xs : list pystr) (x : pystr) :
  In x xs -> contains (join sep xs) x = true.
Proof.
  induction xs as [|a xs IH]; intro H; [destruct H|].
  destruct xs as [|b xs].
  - destruct H as [->|[]]. apply contains_refl.
  - change (join sep (a :: b :: xs)) with (a ++ sep ++ join sep (b :: xs)).
    destruct H as [->|H].
    + apply contains_app_l, contains_refl.
    + apply contains_app_r, contains_app_r, IH, H.
Qed.

Lemma nonempty_list_In (xs : list pystr) (x : pystr) :
  In x xs -> nonempty_list xs = true.
Proof. destruct xs; [intros []|reflexivity]. Qed.

(** X11: the rule-based note is an audit trail of the values: every bank
    account, phone number, payment ID and link of the artifact set, and
    a non-empty stored reason, appear verbatim in the one note that is
    appended. *)
Theorem fallback_note_lists_every_value
    (session : SessionState) (intelligence : ExtractedIntelligence)
    (x : pystr) :
  In x (bankAccounts intelligence) \/ In x (phoneNumbers intelligence)
  \/ In x (upiIds intelligence) \/ In x (phishingLinks intelligence)
  \/ (finalDecisionReason session = Some x /\ nonempty x = true) ->
  exists note,
    agentNotes (_generate_fallback_notes session intelligence)
    = agentNotes session ++ [note]
    /\ contains note x = true.
Proof.
  intro H.
  assert (P : exists part,
             In part (fallback_notes_list session intelligence)
             /\ contains part x = true).
  { unfold fallback_notes_list.
    destruct H as [H|[H|[H|[H|[R N]]]]].
    - rewrite (nonempty_list_In _ _ H). eexists. split.
      + apply in_or_app. right. apply in_or_app. left. now left.
      + apply contains_app_r, join_contains, H.
    - rewrite (nonempty_list_In _ _ H). eexists. split.
      + apply in_or_app. right. apply in_or_app. right.
        apply in_or_app. left. now left.
      + apply contains_app_r, join_contains, H.
    - rewrite (nonempty_list_In _ _ H). eexists. split.
      + apply in_or_app. right. apply in_or_app. right.
        apply in_or_app. right. apply in_or_app. left. now left.
      + apply contains_app_r, join_contains, H.
    - rewrite (nonempty_list_In _ _ H). eexists. split.
      + apply in_or_app. right. apply in_or_app. right.
        apply in_or_app. right. apply in_or_app. right. now left.
      + apply contains_app_r, join_contains, H.
    - rewrite R, N. eexists. split.
      + apply in_or_app. left. now left.
      + apply contains_app_r, contains_refl. }
  destruct P as [part [I C]].
  unfold _generate_fallback_notes.
  rewrite (nonempty_list_In _ _ I).
  eexists. split; [reflexivity|].
  apply contains_trans with part; [|exact C].
  apply join_contains, I.
Qed.

Section OrchestratorInvariants.

Variable extract : Message -> list Message -> res ExtractedIntelligence.
Variable update_session :
  SessionState -> Message -> ExtractedIntelligence -> SessionState.
Variable decide_strategy : SessionState -> Message -> res StrategyDecision.
Variable generate_response :
  Message -> list Message -> StrategyDecision -> res (option pystr).
Variable validate_response : pystr -> res (bool * option pystr).
Variable notes_client : bool.
Variable notes_completion :
  SessionState -> ExtractedIntelligence -> res pystr.

Local Abbreviation intelligence_of message session :=
  (_extract_intelligence_parallel extract message session).

Local Abbreviation updated message session :=
  (update_session session message (intelligence_of message session)).

Local Abbreviation turn :=
  (process_message extract update_session decide_strategy generate_response
                   validate_response notes_client notes_completion).

Local Abbreviation add_notes :=
  (_add_intelligence_notes notes_client notes_completion).

Lemma add_notes_record
    (session : SessionState) (intelligence : ExtractedIntelligence) :
  exists added,
    List.length added <= 1
    /\ add_notes session intelligence
       = mkSession (sessionId session) (conversationHistory session)
                   (extractedIntelligence session)
                   (conversationEnded session)
                   (finalDecisionReason session)
                   (agentNotes session ++ added).
Proof.
  unfold _add_intelligence_notes.
  match goal with
  | |- context [match ?a with Some _ => _ | None => _ end] =>
      destruct a as [note|]
  end.
  - exists [note]. split; [simpl; lia|reflexivity].
  - unfold _generate_fallback_notes.
    destruct (nonempty_list (fallback_notes_list session intelligence)).
    + eexists [_]. split; [simpl; lia|reflexivity].
    + exists []. rewrite app_nil_r. destruct session.
      split; [simpl; lia|reflexivity].
Qed.

(** X10: the note step changes nothing of the session but its notes:
    the identifier, the history, the stored artifacts, the flag and the
    reason stay, the notes already there stay in place, and at most one
    note is appended after them. *)
Theorem note_step_only_appends
    (session : SessionState) (intelligence : ExtractedIntelligence) :
  exists added,
    List.length added <= 1
    /\ agentNotes (add_notes session intelligence)
       = agentNotes session ++ added
    /\ sessionId (add_notes session intelligence) = sessionId session
    /\ conversationHistory (add_notes session intelligence)
       = conversationHistory session
    /\ extractedIntelligence (add_notes session intelligence)
       = extractedIntelligence session
    /\ conversationEnded (add_notes session intelligence)
       = conversationEnded session
    /\ finalDecisionReason (add_notes session intelligence)
       = finalDecisionReason session.
Proof.
  destruct (add_notes_record session intelligence) as [added [L E]].
  exists added. rewrite E. simpl. auto 8.
Qed.

(** X12: whatever the stages do, a turn leaves the identifier, the
    history, the stored artifacts and the reason as the update of the
    turn set them, keeps the notes already there and appends at most two
    after them, and never clears the flag of an ended conversation. *)
Theorem turn_frame (message : Message) (session : SessionState) :
  let before := updated message session in
  let after := snd (turn message session) in
  sessionId after = sessionId before
  /\ conversationHistory after = conversationHistory before
  /\ extractedIntelligence after = extractedIntelligence before
  /\ finalDecisionReason after = finalDecisionReason before
  /\ (exists added,
         List.length added <= 2
         /\ agentNotes after = agentNotes before ++ added)
  /\ (conversationEnded before = true -> conversationEnded after = true).
Proof.
  intros before after. unfold after, process_message. fold before.
  assert (Z : exists added : list pystr,
             List.length added <= 2
             /\ agentNotes before = agentNotes before ++ added).
  { exists []. rewrite app_nil_r. split; [simpl; lia|reflexivity]. }
  destruct (decide_strategy before message) as [decision|e];
    [|simpl; auto 8].
  destruct (should_engage decision); simpl negb; cbv iota.
  2: { destruct (goal_eqb (goal decision) WRAP_UP); simpl; auto 8. }
  destruct (generate_response message (conversationHistory before) decision)
    as [[candidate|]|e]; [|simpl; auto 8|simpl; auto 8].
  destruct (nonempty candidate); simpl negb; cbv iota; [|simpl; auto 8].
  destruct (validate_response candidate) as [[is_valid error]|e];
    [|simpl; auto 8].
  destruct is_valid; simpl negb; cbv iota.
  - destruct (add_notes_record before (intelligence_of message session))
      as [added [L E]].
    rewrite E.
    destruct (goal_eqb (goal decision) WRAP_UP); simpl;
      repeat split; auto; exists added; split; auto; lia.
  - match goal with
    | |- context [add_agent_note before ?v] => set (violation := v)
    end.
    destruct (add_notes_record (add_agent_note before violation)
                (intelligence_of message session))
      as [added [L E]].
    rewrite E.
    destruct (goal_eqb (goal decision) WRAP_UP); simpl;
      repeat split; auto; exists (violation :: added);
      (split; [simpl; lia|now rewrite <- app_assoc]).
Qed.

(** X13: a turn never returns an empty text: a returned response is not
    empty, and it is either the fixed sentence of the safety guard or
    the very text the persona stage produced for the strategy of the
    turn. *)
Theorem returned_response_not_empty
    (message : Message) (session : SessionState) (response : pystr) :
  fst (turn message session) = Ok (Some response) ->
  nonempty response = true
  /\ (response = SAFE_FALLBACK
      \/ exists decision,
          decide_strategy (updated message session) message = Ok decision
          /\ should_engage decision = true
          /\ generate_response message
               (conversationHistory (updated message session)) decision
             = Ok (Some response)).
Proof.
  unfold process_message.
  destruct (decide_strategy (updated message session) message)
    as [decision|e] eqn:D; [|discriminate].
  destruct (should_engage decision) eqn:E; simpl negb; cbv iota;
    [|discriminate].
  destruct (generate_response message
              (conversationHistory (updated message session)) decision)
    as [[candidate|]|e] eqn:G; try discriminate.
  destruct (nonempty candidate) eqn:N; simpl negb; cbv iota;
    [|discriminate].
  destruct (validate_response candidate) as [[is_valid error]|e];
    [|discriminate].
  destruct is_valid; simpl; intro H; injection H as <-.
  - split; [exact N|]. right. now exists decision.
  - split; [reflexivity|now left].
Qed.

(** X14: a candidate the safety guard accepts is returned unchanged, and
    the turn records no note of the guard: the notes are those the note
    step leaves on the updated session, whatever the second component of
    the verdict holds. *)
Theorem accepted_candidate_returned_unchanged
    (message : Message) (session : SessionState)
    (decision : StrategyDecision) (candidate : pystr)
    (error : option pystr) :
  decide_strategy (updated message session) message = Ok decision ->
  should_engage decision = true ->
  generate_response message
    (conversationHistory (updated message session)) decision
    = Ok (Some candidate) ->
  nonempty candidate = true ->
  validate_response candidate = Ok (true, error) ->
  fst (turn message session) = Ok (Some candidate)
  /\ agentNotes (snd (turn message session))
     = agentNotes (add_notes (updated message session)
                             (intelligence_of message session)).
Proof.
  intros D E G N V.
  unfold process_message. rewrite D, E. simpl negb. cbv iota.
  rewrite G, N. simpl negb. cbv iota. rewrite V. simpl negb. cbv iota.
  now destruct (goal_eqb (goal decision) WRAP_UP).
Qed.

End OrchestratorInvariants.

(** ** Facts about the templates and prompts *)

Lemma get_response_in_responses
    (lower : pystr -> pystr) (goal : ConversationGoal) (message_text : pystr) :
  In (FallbackResponses.get_response lower goal message_text)
     FallbackResponses.responses.
Proof.
  unfold FallbackResponses.get_response, FallbackResponses.responses.
  destruct goal; cbn [goal_eqb];
    repeat match goal with
           | |- context [if ?c then _ else _] => destruct c
           end;
    repeat (first [now left | right]).
Qed.

(** X15: whatever the goal and the message, the rule-based reply is not
    empty, so it is never taken for a refusal to respond, and it holds
    none of the forbidden or meta phrases, neither as written nor when
    both are put in lower case; the same is true of the sentence the
    safety guard substitutes. *)
Theorem fallback_reply_passes_phrase_lists
    (lower : pystr -> pystr) (goal : ConversationGoal) (message_text : pystr) :
  let reply := FallbackResponses.get_response lower goal message_text in
  let phrases :=
    ForbiddenPhrases.FORBIDDEN ++ ForbiddenPhrases.META_PHRASES in
  nonempty reply = true
  /\ forall phrase,
      In phrase phrases ->
      contains reply phrase = false
      /\ contains (Sample.lower reply) (Sample.lower phrase) = false
      /\ contains SAFE_FALLBACK phrase = false
      /\ contains (Sample.lower SAFE_FALLBACK) (Sample.lower phrase) = false.
Proof.
  intros reply phrases.
  assert (C : forallb
                (fun r =>
                   nonempty r
                   && forallb
                        (fun p =>
                           negb (contains r p)
                           && negb (contains (Sample.lower r) (Sample.lower p)))
                        phrases)
                (SAFE_FALLBACK :: FallbackResponses.responses) = true)
    by (vm_compute; reflexivity).
  rewrite forallb_forall in C.
  pose proof (C reply (or_intror (get_response_in_responses _ _ _))) as R.
  pose proof (C SAFE_FALLBACK (or_introl eq_refl)) as S.
  apply andb_prop in R. destruct R as [N R].
  apply andb_prop in S. destruct S as [_ S].
  rewrite forallb_forall in R, S.
  split; [exact N|]. intros phrase H.
  specialize (R phrase H). specialize (S phrase H).
  apply andb_prop in R. destruct R as [R1 R2].
  apply andb_prop in S. destruct S as [S1 S2].
  apply negb_true_iff in R1, R2, S1, S2. auto.
Qed.

(** X16: every goal has its own instruction: the lookup never raises,
    never falls back on the default entry, and two different goals never
    get the same instruction. *)
Theorem goal_instruction_own_and_distinct :
  (forall goal,
      exists instruction,
        PersonaAgentPrompts.get_goal_instruction goal = Ok instruction
        /\ dict_get PersonaAgentPrompts.goal_instructions goal
           = Some instruction)
  /\ (forall g1 g2,
         PersonaAgentPrompts.get_goal_instruction g1
         = PersonaAgentPrompts.get_goal_instruction g2 ->
         g1 = g2).
Proof.
  split.
  - intro goal. destruct goal; eexists; split; reflexivity.
  - intros g1 g2 H.
    destruct g1, g2; try reflexivity; vm_compute in H; discriminate H.
Qed.

Lemma last_n_app {A : Type} (n : nat) (older recent : list A) :
  List.length recent = n -> last_n n (older ++ recent) = recent.
Proof.
  intro L. unfold last_n. rewrite length_app, L.
  replace (List.length older + n - n) with (List.length older + 0) by lia.
  rewrite skipn_app, Nat.add_0_r, skipn_all.
  replace (List.length older - List.length older) with 0 by lia.
  reflexivity.
Qed.

Lemma last_n_idempotent {A : Type} (n : nat) (xs : list A) :
  last_n n (last_n n xs) = last_n n xs.
Proof.
  unfold last_n. rewrite (length_skipn _ xs).
  replace (List.length xs - (List.length xs - n) - n) with 0 by lia.
  reflexivity.
Qed.

Lemma last_n_nonempty (xs : list Message) :
  nonempty_history (last_n 8 xs) = nonempty_history xs.
Proof.
  destruct xs as [|x xs]; [reflexivity|].
  destruct (last_n 8 (x :: xs)) as [|y ys] eqn:E; [|reflexivity].
  exfalso. apply (f_equal (@List.length Message)) in E.
  unfold last_n in E. rewrite length_skipn in E.
  cbn [List.length] in E. lia.
Qed.

(** The lines of the previous conversation, one for each message. *)
Lemma context_lines (l : list Message) (context : pystr) :
  fold_left
    (fun context msg =>
       if pystr_eqb (sender msg) (lit "scammer")
       then context ++ lit "Scammer: " ++ text msg ++ nl
       else context ++ lit "You: " ++ text msg ++ nl)
    l context
  = context
    ++ flat_map
         (fun msg =>
            (if pystr_eqb (sender msg) (lit "scammer")
             then lit "Scammer: " else lit "You: ")
            ++ text msg ++ nl)
         l.
Proof.
  revert context. induction l as [|m l IH]; intro context; cbn [fold_left].
  - cbn [flat_map]. now rewrite app_nil_r.
  - rewrite IH. cbn [flat_map].
    destruct (pystr_eqb (sender m) (lit "scammer"));
      now rewrite <- !app_assoc.
Qed.

Lemma flat_map_contains {A : Type} (f : A -> pystr) (l : list A) (a : A) :
  In a l -> contains (flat_map f l) (f a) = true.
Proof.
  induction l as [|b l IH]; intro H; [destruct H|].
  simpl. destruct H as [->|H].
  - apply contains_app_l, contains_refl.
  - apply contains_app_r, IH, H.
Qed.

(** X17: the context given to the persona model holds a bounded view of
    the history: it is the context of the last eight messages, so that
    whatever came before them has no influence, and each of these eight
    is there on a line of its own with the label of its speaker. *)
Theorem context_uses_last_eight
    (system_prompt : pystr) (history : list Message) (current : pystr) :
  PersonaAgentPrompts.build_conversation_context system_prompt history current
  = PersonaAgentPrompts.build_conversation_context
      system_prompt (last_n 8 history) current
  /\ (forall older older' recent,
         List.length recent = 8 ->
         PersonaAgentPrompts.build_conversation_context
           system_prompt (older ++ recent) current
         = PersonaAgentPrompts.build_conversation_context
             system_prompt (older' ++ recent) current)
  /\ (forall msg,
         In msg (last_n 8 history) ->
         contains
           (PersonaAgentPrompts.build_conversation_context
              system_prompt history current)
           ((if pystr_eqb (sender msg) (lit "scammer")
             then lit "Scammer: " else lit "You: ")
            ++ text msg ++ nl)
         = true).
Proof.
  assert (W : forall h,
             PersonaAgentPrompts.build_conversation_context
               system_prompt h current
             = PersonaAgentPrompts.build_conversation_context
                 system_prompt (last_n 8 h) current).
  { intro h. unfold PersonaAgentPrompts.build_conversation_context.
    now rewrite last_n_nonempty, last_n_idempotent. }
  split; [apply W|]. split.
  - intros older older' recent L.
    rewrite (W (older ++ recent)), (W (older' ++ recent)).
    now rewrite !last_n_app.
  - intros msg H.
    unfold PersonaAgentPrompts.build_conversation_context.
    assert (N : nonempty_history history = true).
    { rewrite <- last_n_nonempty. destruct (last_n 8 history);
        [destruct H|reflexivity]. }
    rewrite N, context_lines.
    apply contains_app_l, contains_app_l, contains_app_l, contains_app_r.
    apply (flat_map_contains
             (fun msg =>
                (if pystr_eqb (sender msg) (lit "scammer")
                 then lit "Scammer: " else lit "You: ")
                ++ text msg ++ nl)).
    exact H.
Qed.

Lemma numbered_messages_prefix
    (history : list Message) (i : nat) (conversation_text : pystr) :
  exists t,
    IntelligenceExtractionPrompts.numbered_messages i history conversation_text
    = conversation_text ++ t.
Proof.
  revert i conversation_text.
  induction history as [|m rest IH]; intros i acc;
    cbn [IntelligenceExtractionPrompts.numbered_messages].
  - exists []. now rewrite app_nil_r.
  - destruct (IH (S i)
                (acc ++ lit "Message " ++ str_of_nat i ++ lit " ("
                     ++ sender m ++ lit "): " ++ text m ++ nl))
      as [t E].
    rewrite E. eexists. rewrite <- app_assoc. reflexivity.
Qed.

Lemma numbered_messages_line
    (history : list Message) (i k : nat) (conversation_text : pystr)
    (msg : Message) :
  nth_error history k = Some msg ->
  contains
    (IntelligenceExtractionPrompts.numbered_messages
       i history conversation_text)
    (lit "Message " ++ str_of_nat (i + k) ++ lit " (" ++ sender msg
       ++ lit "): " ++ text msg ++ nl)
  = true.
Proof.
  revert i k conversation_text.
  induction history as [|m rest IH]; intros i k acc H.
  - destruct k; discriminate H.
  - destruct k as [|k]; simpl in H.
    + injection H as ->. rewrite Nat.add_0_r.
      cbn [IntelligenceExtractionPrompts.numbered_messages].
      destruct (numbered_messages_prefix rest (S i)
                  (acc ++ lit "Message " ++ str_of_nat i ++ lit " ("
                       ++ sender msg ++ lit "): " ++ text msg ++ nl))
        as [t E].
      rewrite E. apply contains_app_l, contains_app_r, contains_refl.
    + cbn [IntelligenceExtractionPrompts.numbered_messages].
      rewrite Nat.add_succ_r. apply (IH (S i) k). exact H.
Qed.

(** X18: the request of the external method quotes the whole
    conversation, with no window: every message it is given appears on a
    line with its number, counted from 1, its sender and its text, and
    the current message on a line of its own; as the aggregator passes
    the history with the current message appended, that message is
    quoted twice. *)
Theorem extraction_prompt_quotes_every_message
    (history : list Message) (current : pystr) :
  (forall k msg,
      nth_error history k = Some msg ->
      contains
        (IntelligenceExtractionPrompts.get_intelligence_extraction_prompt
           history current)
        (lit "Message " ++ str_of_nat (S k) ++ lit " (" ++ sender msg
           ++ lit "): " ++ text msg ++ nl)
      = true)
  /\ contains
       (IntelligenceExtractionPrompts.get_intelligence_extraction_prompt
          history current)
       (lit "Current Message (scammer): " ++ current ++ nl)
     = true
  /\ (forall message,
         contains
           (IntelligenceExtractionPrompts.get_intelligence_extraction_prompt
              (history ++ [message]) (text message))
           (lit "Message " ++ str_of_nat (S (List.length history)) ++ lit " ("
              ++ sender message ++ lit "): " ++ text message ++ nl)
         = true).
Proof.
  assert (A : forall h c k msg,
             nth_error h k = Some msg ->
             contains
               (IntelligenceExtractionPrompts.get_intelligence_extraction_prompt
                  h c)
               (lit "Message " ++ str_of_nat (S k) ++ lit " (" ++ sender msg
                  ++ lit "): " ++ text msg ++ nl)
             = true).
  { intros h c k msg H.
    unfold IntelligenceExtractionPrompts.get_intelligence_extraction_prompt.
    apply contains_app_r, contains_app_l, contains_app_l.
    apply (numbered_messages_line h 1 k [] msg H). }
  split; [apply A|]. split.
  - unfold IntelligenceExtractionPrompts.get_intelligence_extraction_prompt.
    apply contains_app_r, contains_app_l, contains_app_r, contains_refl.
  - intro message. apply A.
    rewrite nth_error_app2 by lia.
    now rewrite Nat.sub_diag.
Qed.

(** ** The added facts on concrete conversations *)

Lemma phone_numbers_canonical_witness :
  let message := Sample.msg "call 98765-43210 or 0-9876-543-210" in
  exists r,
    Sample.regex_extract message [] = Ok r
    /\ phoneNumbers r = [lit "+919876543210"]
    /\ len (lit "+919876543210") = 13.
Proof.
  intro message.
  destruct (phone_numbers_canonical Sample.patterns Sample.keywords
              Sample.lower Sample.list_set sample_list_set_In message [])
    as [r [E C]].
  exists r. split; [exact E|].
  assert (P : phoneNumbers r = [lit "+919876543210"]).
  { vm_compute in E. injection E as <-. reflexivity. }
  split; [exact P|].
  apply (C (lit "+919876543210")). rewrite P. now left.
Defined.

Lemma format_phone_idempotent_witness :
  format_phone (strip_separators (lit "0-9876-543-210"))
  = Ok (Some (lit "+919876543210"))
  /\ format_phone (strip_separators (lit "+919876543210"))
     = Ok (Some (lit "+919876543210")).
Proof.
  split; [reflexivity|].
  exact (format_phone_idempotent (lit "0-9876-543-210")
           (lit "+919876543210") eq_refl).
Defined.

Lemma phone_variants_merged_witness :
  let message := Sample.msg "call +91-98765-43210" in
  let history := [Sample.msg "or 09876543210"; Sample.msg "919876543210"] in
  len (lit "9876543210") = 10
  /\ exists r,
      Sample.regex_extract message history = Ok r
      /\ phoneNumbers r = [lit "+919876543210"].
Proof.
  intros message history. split; [reflexivity|].
  apply (phone_variants_merged Sample.patterns Sample.keywords Sample.lower
           Sample.list_set sample_list_set_NoDup sample_list_set_In
           message history (lit "9876543210") eq_refl).
  - exists message, (lit "+91-98765-43210").
    split; [now left|]. vm_compute. now left.
  - intros m c Hm Hc.
    destruct Hm as [<-|[<-|[<-|[]]]]; vm_compute in Hc;
      destruct Hc as [<-|[]]; vm_compute; auto.
Defined.

Lemma bank_accounts_clean_witness :
  let message := Sample.msg "acct 1234-5678-9012" in
  exists r,
    Sample.regex_extract message [] = Ok r
    /\ In (lit "123456789012") (bankAccounts r)
    /\ strip_separators (lit "123456789012") = lit "123456789012".
Proof.
  intro message.
  destruct (bank_accounts_clean Sample.patterns Sample.keywords
              Sample.lower Sample.list_set sample_list_set_In message [])
    as [r [E C]].
  exists r. split; [exact E|].
  assert (I : In (lit "123456789012") (bankAccounts r)).
  { vm_compute in E. injection E as <-. now left. }
  split; [exact I|]. exact (proj2 (C _ I)).
Defined.

Lemma history_order_irrelevant_witness :
  let a := Sample.msg "pay 1234-5678-9012" in
  let b := Sample.msg "visit http://x.example now" in
  exists r r',
    Sample.regex_extract (Sample.msg "hello") [a; b] = Ok r
    /\ Sample.regex_extract (Sample.msg "hello") [b; a; b] = Ok r'
    /\ (forall x, In x (bankAccounts r) <-> In x (bankAccounts r'))
    /\ (forall x, In x (phishingLinks r) <-> In x (phishingLinks r')).
Proof.
  intros a b.
  destruct (history_order_irrelevant Sample.patterns Sample.keywords
              Sample.lower Sample.list_set sample_list_set_In
              (Sample.msg "hello") [a; b] [b; a; b])
    as [r [r' [E [E' [B [_ [_ [L _]]]]]]]].
  - intro m. simpl. tauto.
  - exists r, r'. auto.
Defined.

Lemma keywords_bounded_witness :
  exists r,
    Sample.regex_extract (Sample.msg "URGENT urgent otp") [] = Ok r
    /\ NoDup (suspiciousKeywords r)
    /\ List.length (suspiciousKeywords r) <= 3.
Proof.
  destruct (keywords_bounded Sample.patterns Sample.keywords Sample.lower
              Sample.list_set sample_list_set_NoDup sample_list_set_In
              (Sample.msg "URGENT urgent otp") [])
    as [r [E [_ [N L]]]].
  exists r. split; [exact E|]. split; [exact N|exact L].
Defined.

Lemma nothing_found_gives_empty_witness :
  Sample.regex_extract (Sample.msg "hello 98765")
                       [Sample.msg "how are you"]
  = Ok ExtractedIntelligence_new.
Proof.
  apply (nothing_found_gives_empty Sample.patterns Sample.keywords
           Sample.lower Sample.list_set sample_list_set_In).
  - intros m [<-|[<-|[]]]; repeat split; try reflexivity;
      intros c Hc; vm_compute in Hc.
    + destruct Hc as [<-|[]]. reflexivity.
    + destruct Hc.
  - intros k Hk. vm_compute in Hk.
    destruct Hk as [<-|[<-|[<-|[]]]]; reflexivity.
Defined.

Lemma external_answer_returned_verbatim_witness :
  let twice :=
    mkIntelligence [lit "1234"; lit "1234"] [] [lit "98765 43210"] [] [] in
  extract_intelligence Sample.patterns Sample.keywords Sample.lower
    Sample.list_set true Sample.llm_answers (fun _ => Ok twice)
    Sample.truthy_if_nonempty (Sample.msg "hello") []
  = Ok twice
  /\ ~ NoDup (bankAccounts twice).
Proof.
  intro twice. split.
  - exact (external_answer_returned_verbatim Sample.llm_answers
             (fun _ => Ok twice) Sample.truthy_if_nonempty
             (Sample.msg "hello") [] (lit "{}") twice
             eq_refl eq_refl eq_refl
             Sample.patterns Sample.keywords Sample.lower Sample.list_set).
  - intro N. inversion N as [|? ? Hn _]. apply Hn. now left.
Defined.

Lemma strip_quotes_unwraps_witness :
  strip_quotes (dq ++ lit "Urgency tactics." ++ dq) = lit "Urgency tactics."
  /\ strip_quotes (lit "Urgency tactics.") = lit "Urgency tactics.".
Proof.
  destruct strip_quotes_unwraps as [W [_ U]].
  split; [apply W|]. apply U. now left.
Defined.

Lemma fallback_note_lists_every_value_witness :
  let intelligence :=
    mkIntelligence [lit "111122223333"] [lit "a@upi"]
                   [lit "+919876543210"] [] [] in
  In (lit "a@upi") (upiIds intelligence)
  /\ exists note,
      agentNotes (_generate_fallback_notes Sample.session0 intelligence)
      = [note]
      /\ contains note (lit "a@upi") = true.
Proof.
  intro intelligence.
  assert (I : In (lit "a@upi") (upiIds intelligence)) by now left.
  split; [exact I|].
  exact (fallback_note_lists_every_value Sample.session0 intelligence
           (lit "a@upi") (or_intror (or_intror (or_introl I)))).
Defined.

Lemma returned_response_not_empty_witness :
  fst (Sample.turn (Sample.msg "hello") Sample.session0)
  = Ok (Some (lit "Who is this?"))
  /\ nonempty (lit "Who is this?") = true.
Proof.
  split; [reflexivity|].
  exact (proj1 (returned_response_not_empty Sample.extract
                  Sample.update_session Sample.decide_strategy
                  Sample.generate_response Sample.validate_response
                  false Sample.notes_raises
                  (Sample.msg "hello") Sample.session0
                  (lit "Who is this?") eq_refl)).
Defined.

Lemma accepted_candidate_returned_unchanged_witness :
  let message := Sample.msg "hello" in
  Sample.validate_response (lit "Who is this?") = Ok (true, None)
  /\ fst (Sample.turn message Sample.session0)
     = Ok (Some (lit "Who is this?"))
  /\ agentNotes (snd (Sample.turn message Sample.session0)) = [].
Proof.
  intro message. split; [reflexivity|].
  exact (accepted_candidate_returned_unchanged Sample.extract
           Sample.update_session Sample.decide_strategy
           Sample.generate_response Sample.validate_response
           false Sample.notes_raises message Sample.session0
           (mkDecision CONTINUE true (lit "engage"))
           (lit "Who is this?") None
           eq_refl eq_refl eq_refl eq_refl eq_refl).
Defined.

Lemma fallback_reply_passes_phrase_lists_witness :
  In (lit "honeypot") ForbiddenPhrases.FORBIDDEN
  /\ contains
       (FallbackResponses.get_response Sample.lower CLARIFY
          (lit "Send your UPI now"))
       (lit "honeypot")
     = false.
Proof.
  assert (I : In (lit "honeypot") ForbiddenPhrases.FORBIDDEN)
    by (vm_compute; auto 6).
  split; [exact I|].
  destruct (fallback_reply_passes_phrase_lists Sample.lower CLARIFY
              (lit "Send your UPI now"))
    as [_ P].
  exact (proj1 (P (lit "honeypot") (in_or_app _ _ _ (or_introl I)))).
Defined.

Lemma goal_instruction_own_and_distinct_witness :
  PersonaAgentPrompts.get_goal_instruction WRAP_UP
  = PersonaAgentPrompts.get_goal_instruction WRAP_UP
  /\ exists instruction,
      PersonaAgentPrompts.get_goal_instruction DELAY = Ok instruction
      /\ contains instruction (lit "Delay politely.") = true.
Proof.
  split; [reflexivity|].
  destruct (proj1 goal_instruction_own_and_distinct DELAY) as [v [E D]].
  exists v. split; [exact E|].
  vm_compute in D. injection D as <-. reflexivity.
Defined.

Lemma context_uses_last_eight_witness :
  let recent :=
    map Sample.msg ["1"; "2"; "3"; "4"; "5"; "6"; "7"; "8"]%string in
  List.length recent = 8
  /\ PersonaAgentPrompts.build_conversation_context
       (lit "prompt") ([Sample.msg "send your otp"] ++ recent) (lit "now")
     = PersonaAgentPrompts.build_conversation_context
         (lit "prompt") ([] ++ recent) (lit "now").
Proof.
  intro recent. split; [reflexivity|].
  exact (proj1 (proj2 (context_uses_last_eight (lit "prompt") [] (lit "now")))
           [Sample.msg "send your otp"] [] recent eq_refl).
Defined.

Lemma extraction_prompt_quotes_every_message_witness :
  let history := [Sample.msg "hello"; Sample.msg "send otp"] in
  nth_error history 1 = Some (Sample.msg "send otp")
  /\ contains
       (IntelligenceExtractionPrompts.get_intelligence_extraction_prompt
          history (lit "now"))
       (lit "Message 2 (scammer): send otp" ++ nl)
     = true.
Proof.
  intro history. split; [reflexivity|].
  exact (proj1 (extraction_prompt_quotes_every_message history (lit "now"))
           1 (Sample.msg "send otp") eq_refl).
Defined.
